(** * MoSQITo, time-varying loudness (Moore, Glasberg & Schlittenlacher):
      the [tv2018] pipeline of [loudness_mgs/tv2018_scratch.py]

    The Python function [tv2018] is embedded as a Rocq function in a small
    monad that carries the two effects the source has: lines written to the
    console by [print], and exceptions.  The functions it imports from
    [mgsutils] and from scipy are not part of the translated sources; they
    are fields of a record [Env] the pipeline is parameterised by, each one
    a function that may raise.  The numpy operations the source applies
    ([np.pad], basic slicing, row assignment, [np.zeros], [+], [np.max],
    [np.sum(axis=1)], [/ 4]) are modelled from their documented behaviour.

    Samples and loudness values are Python floats in the source.  They are
    idealised as rationals [Q]: no rounding, no infinities, no NaN.  Numeric
    equalities are therefore stated with [==] where arithmetic is involved. *)

From Stdlib Require Import String Ascii.
From Stdlib Require Import ZArith QArith Qminmax List Bool Lia Lqa.
Import ListNotations.

Set Implicit Arguments.
Local Open Scope string_scope.
Local Open Scope Z_scope.
Local Open Scope list_scope.

(** ** Python: exceptions, console output, and the monad of the embedding *)

Module Py.

(** The exceptions that can end a run.  [ValueError], [IndexError] and
    [ZeroDivisionError] are raised by numpy and by the interpreter;
    [ConfigurationError] and [NumericDomainError] are the two classes of
    the error taxonomy; [OSError] is what reading a sound file raises. *)
Inductive exn : Type :=
| ValueError
| IndexError
| ZeroDivisionError
| ConfigurationError
| NumericDomainError
| OSError.

Inductive res (A : Type) : Type :=
| Ok (a : A)
| Err (e : exn).
Arguments Ok {A} a.
Arguments Err {A} e.

Definition res_bind {A B} (r : res A) (k : A -> res B) : res B :=
  match r with
  | Ok a => k a
  | Err e => Err e
  end.

Definition res_map {A B} (f : A -> B) (r : res A) : res B :=
  res_bind r (fun a => Ok (f a)).

(** A printed line is the sequence of the pieces of its f-string: literal
    text, a float printed as it is ([{x}]), a float printed with two
    decimals ([{x:.2f}]). *)
Inductive frag : Type :=
| Lit (s : string)
| Flt (x : Q)
| Flt2 (x : Q).

Definition line : Type := list frag.

(** A computation: what it printed, and its value or the exception that
    ended it.  What was printed before an exception stays printed.  [print]
    itself is taken to succeed: the console can encode every string handed
    to it.  Where it cannot, Python's [print] raises [UnicodeEncodeError];
    properties that compare runs printing different strings are therefore
    stated of runs that return. *)
Definition M (A : Type) : Type := (list line * res A)%type.

Definition ret {A} (a : A) : M A := ([], Ok a).

Definition bind {A B} (m : M A) (k : A -> M B) : M B :=
  match m with
  | (out, Ok a) => let (out', r) := k a in (out ++ out', r)
  | (out, Err e) => (out, Err e)
  end.

Definition print (l : line) : M unit := ([l], Ok tt).

Definition lift {A} (r : res A) : M A := ([], r).

Definition printed {A} (m : M A) : list line := fst m.
Definition result {A} (m : M A) : res A := snd m.

End Py.
Import Py.

Declare Scope py_scope.
Delimit Scope py_scope with py.
Notation "x <- m ;; k" := (bind m (fun x => k))
  (at level 61, m at next level, right associativity) : py_scope.
Notation "' p <- m ;; k" := (bind m (fun x => match x with p => k end))
  (at level 61, p pattern, m at next level, right associativity) : py_scope.
Notation "m ;; k" := (bind m (fun _ => k))
  (at level 61, right associativity) : py_scope.
Notation "x <~ r ;; k" := (res_bind r (fun x => k))
  (at level 61, r at next level, right associativity) : py_scope.
Notation "' p <~ r ;; k" := (res_bind r (fun x => match x with p => k end))
  (at level 61, p pattern, r at next level, right associativity) : py_scope.
Local Open Scope py_scope.

(** ** numpy: the arrays and operations the pipeline uses *)

Module Np.

(** A one-dimensional float array. *)
Definition vec : Type := list Q.

(** A two-dimensional float array as the list of its rows (axis 0 first). *)
Definition matrix : Type := list (list Q).

(** The sound signal: a one-dimensional array of samples, or a
    two-dimensional one of shape (samples, channels).  The number of
    columns is kept beside the rows, so that shape (0, c) is represented. *)
Inductive ndarray : Type :=
| Arr1 (data : vec)
| Arr2 (ncols : nat) (rows : matrix).

Definition ndim (a : ndarray) : nat :=
  match a with
  | Arr1 _ => 1
  | Arr2 _ _ => 2
  end.

(** Python's [len]: the size of axis 0. *)
Definition len (a : ndarray) : Z :=
  match a with
  | Arr1 d => Z.of_nat (length d)
  | Arr2 _ rows => Z.of_nat (length rows)
  end.

Definition np_zeros (n : nat) : vec := repeat 0%Q n.

(** [np.pad(a, pad_width, mode="constant")]: zeros before and after along
    each axis.  [pad_width] is a sequence of (before, after) pairs that
    numpy broadcasts to shape (ndim, 2): one pair serves every axis, [ndim]
    pairs serve one axis each, and any other number raises [ValueError]. *)
Definition np_pad (a : ndarray) (pad_width : list (nat * nat)) : res ndarray :=
  match a, pad_width with
  | Arr1 d, [(b, e)] =>
      Ok (Arr1 (np_zeros b ++ d ++ np_zeros e))
  | Arr2 c rows, [(b0, e0); (b1, e1)] =>
      let c' := (b1 + c + e1)%nat in
      Ok (Arr2 c' (repeat (np_zeros c') b0
                     ++ map (fun r => np_zeros b1 ++ r ++ np_zeros e1) rows
                     ++ repeat (np_zeros c') e0))
  | Arr2 c rows, [(b, e)] =>
      let c' := (b + c + e)%nat in
      Ok (Arr2 c' (repeat (np_zeros c') b
                     ++ map (fun r => np_zeros b ++ r ++ np_zeros e) rows
                     ++ repeat (np_zeros c') e))
  | _, _ => Err ValueError
  end.

(** A slice bound as Python resolves it against a length [n]: a negative
    bound counts from the end, and the result is clipped to [0, n]. *)
Definition slice_bound (n i : Z) : Z :=
  if i <? 0 then Z.max 0 (i + n) else Z.min i n.

(** [l[start:stop]] along axis 0 (step 1); empty when the bounds cross. *)
Definition py_slice {A} (start stop : Z) (l : list A) : list A :=
  let n := Z.of_nat (length l) in
  let a := slice_bound n start in
  let b := slice_bound n stop in
  firstn (Z.to_nat (b - a)) (skipn (Z.to_nat a) l).

(** [m[i, :] = v]: every entry of row [i] becomes [v]; [IndexError] when
    the array has no row [i]. *)
Fixpoint fill_row (i : nat) (v : Q) (m : matrix) : res matrix :=
  match m, i with
  | [], _ => Err IndexError
  | r :: rest, O => Ok (map (fun _ => v) r :: rest)
  | r :: rest, S j => res_map (cons r) (fill_row j v rest)
  end.

(** [m[i, :]] *)
Definition get_row (m : matrix) (i : nat) : res (list Q) :=
  match nth_error m i with
  | Some r => Ok r
  | None => Err IndexError
  end.

(** [a[i] = v] *)
Fixpoint set_item (a : vec) (i : nat) (v : Q) : res vec :=
  match a, i with
  | [], _ => Err IndexError
  | _ :: rest, O => Ok (v :: rest)
  | x :: rest, S j => res_map (cons x) (set_item rest j v)
  end.

Fixpoint map2 {A B C} (f : A -> B -> C) (a : list A) (b : list B) : list C :=
  match a, b with
  | x :: a', y :: b' => f x y :: map2 f a' b'
  | _, _ => []
  end.

(** [a + b] on one-dimensional arrays: elementwise on equal lengths, an
    array of length 1 is broadcast, other lengths raise [ValueError]. *)
Definition np_add (a b : vec) : res vec :=
  if (length a =? length b)%nat then Ok (map2 Qplus a b)
  else match a, b with
       | _, [y] => Ok (map (fun x => x + y)%Q a)
       | [x], _ => Ok (map (fun y => x + y)%Q b)
       | _, _ => Err ValueError
       end.

Definition qmax (x y : Q) : Q := if Qle_bool x y then y else x.

(** [np.max(a)]: [ValueError] on an empty array. *)
Definition np_max (a : vec) : res Q :=
  match a with
  | [] => Err ValueError
  | x :: rest => Ok (fold_left qmax rest x)
  end.

(** [np.sum(m, axis=1)]: the sum of each row. *)
Definition np_sum_axis1 (m : matrix) : vec :=
  map (fun r => fold_left Qplus r 0%Q) m.

(** [a / c] elementwise. *)
Definition np_div (a : vec) (c : Q) : vec := map (fun x => x / c)%Q a.

(** [int(a / b)] on Python integers: true division, then truncation
    towards zero; [ZeroDivisionError] when [b] is 0.  The float quotient is
    idealised as the exact one. *)
Definition int_div (a b : Z) : res Z :=
  if b =? 0 then Err ZeroDivisionError else Ok (Z.quot a b).

End Np.
Import Np.

(** ** The pipeline *)

Module Tv2018.

(** What [tv2018] imports: [resample] from scipy.signal, the rest from
    [mgsutils].  None of them is among the translated sources, so each is
    a parameter: a function of its arguments that returns or raises, prints
    nothing and leaves the arrays it is given as they are. *)
Record Env : Type := {
  load : string -> res (ndarray * Z);
  resample : ndarray -> Z -> res ndarray;
  sound_field_to_cochlea : ndarray -> string -> res ndarray;
  filtered_signal_to_monaural_instantaneous_specific_loudness :
    ndarray -> Z -> Q -> res (matrix * matrix);
  instantaneous_specific_loudness_to_short_term_specific_loudness :
    matrix -> res (matrix * vec);
  monaural_specific_loudness_to_binaural_loudness_025 :
    list Q -> list Q -> res (Q * Q * Q);
  short_term_loudness_to_long_term_loudness : vec -> res vec;
  sone_to_phon_tv2018 : vec -> res vec
}.

(** The tuple [tv2018] returns. *)
Record outputs : Type := {
  loudness : Q;
  short_term_loudness : vec;
  long_term_loudness : vec;
  instantaneous_loudness_left : vec;
  instantaneous_loudness_right : vec
}.

Definition nl : string := String (ascii_of_nat 10) EmptyString.

(** Two of the lines the pipeline prints. *)
Definition warning_resampled : line :=
  [Lit "[Warning] Signal resampled to 32 kHz to allow calculation."].
Definition info_cochlea : line := [Lit "[Info] Sound field to cochlea"].

(** [for i in idx: st = body(st, i)], stopping at the first exception. *)
Fixpoint for_range {S} (body : S -> nat -> res S) (idx : list nat) (st : S)
  : res S :=
  match idx with
  | [] => Ok st
  | i :: rest => st' <~ body st i ;; for_range body rest st'
  end.

(** The guard inserted at both ends: Fs / 1000 * 64 samples on axis 0,
    nothing on the channel axis. *)
Definition pad_width : list (nat * nat) := [(2048, 2048); (0, 0)]%nat.

(** [a[32:-32, :]] *)
Definition shorten (m : matrix) : matrix := py_slice 32 (-32) m.

(** [a[0, :] = 0] *)
Definition start_with_zero (m : matrix) : res matrix := fill_row 0 0%Q m.

Section Pipeline.

Variable U : Env.

(** Lines 54-56: the file is read unless both [s] and [fs] are given. *)
Definition load_input (filename_sound : string)
           (s : option ndarray) (fs : option Z) : M (ndarray * Z) :=
  match s, fs with
  | Some s, Some fs => ret (s, fs)
  | _, _ =>
      print [Lit "[Info] Loading sound file..."] ;;
      lift (load U filename_sound)
  end.

(** Lines 58-63: a signal at another rate is resampled to 32 kHz. *)
Definition to_operating_rate (s : ndarray) (fs : Z) : M (ndarray * Z) :=
  if negb (fs =? 32000) then
    print warning_resampled ;;
    num <- lift (int_div (32000 * len s) fs) ;;
    s <- lift (resample U s num) ;;
    ret (s, 32000)
  else ret (s, fs).

(** Lines 54-68: everything before the first stage of the model. *)
Definition prepare (filename_sound : string)
           (s : option ndarray) (fs : option Z) : M (ndarray * Z) :=
  '(s, fs) <- load_input filename_sound s fs ;;
  '(s, fs) <- to_operating_rate s fs ;;
  s <- lift (np_pad s pad_width) ;;
  ret (s, fs).

(** Lines 70-88: cochlea filtering, instantaneous specific loudness of
    both channels, the first and last block shortened, the first
    retained frame set to zero.  The slices are views of the arrays the
    stage returned; nothing reads those arrays again. *)
Definition instantaneous_specific_loudness
           (s : ndarray) (fs : Z) (db_max : Q) (field_type : string)
  : M (matrix * matrix) :=
  print info_cochlea ;;
  s <- lift (sound_field_to_cochlea U s field_type) ;;
  print [Lit "[Info] Filtered signal to monaural instantaneous specific loudness"] ;;
  '(isl_left, isl_right) <-
    lift (filtered_signal_to_monaural_instantaneous_specific_loudness
            U s fs db_max) ;;
  let isl_left := shorten isl_left in
  let isl_right := shorten isl_right in
  isl_left <- lift (start_with_zero isl_left) ;;
  isl_right <- lift (start_with_zero isl_right) ;;
  ret (isl_left, isl_right).

(** The body of the loop of lines 107-113.  The right-hand side is
    evaluated first (both rows are read, then the combiner is called),
    then the targets are assigned from left to right. *)
Definition binaural_step (stsl_left stsl_right : matrix)
           (st : vec * vec) (i : nat) : res (vec * vec) :=
  let '(stl_left, stl_right) := st in
  row_left <~ get_row stsl_left i ;;
  row_right <~ get_row stsl_right i ;;
  '(_, l, r) <~ monaural_specific_loudness_to_binaural_loudness_025
                  U row_left row_right ;;
  stl_left <~ set_item stl_left i l ;;
  stl_right <~ set_item stl_right i r ;;
  Ok (stl_left, stl_right).

(** Lines 90-113: short-term specific loudness per channel, then the
    per-frame totals of both sides from the binaural combiner.  The
    second value the integrator returns is bound and then overwritten
    by [np.zeros] (lines 103-104). *)
Definition short_term (isl_left isl_right : matrix) : M (vec * vec) :=
  print [Lit "[Info] Instantaneous specific loudness to short term specific loudness"] ;;
  '(stsl_left, _) <-
    lift (instantaneous_specific_loudness_to_short_term_specific_loudness
            U isl_left) ;;
  '(stsl_right, _) <-
    lift (instantaneous_specific_loudness_to_short_term_specific_loudness
            U isl_right) ;;
  let stl_left := np_zeros (length stsl_left) in
  let stl_right := np_zeros (length stsl_right) in
  print [Lit "[Info] Monaural specific loudness to binaural loudness"] ;;
  lift (for_range (binaural_step stsl_left stsl_right)
                  (seq 0 (length stsl_left)) (stl_left, stl_right)).

(** Lines 115-125: long-term loudness per side, their sum, its maximum. *)
Definition long_term (stl_left stl_right : vec) : M (Q * vec) :=
  print [Lit "[Info] Short term loudness to long term loudness"] ;;
  ltl_left <- lift (short_term_loudness_to_long_term_loudness U stl_left) ;;
  ltl_right <- lift (short_term_loudness_to_long_term_loudness U stl_right) ;;
  long_term_loudness <- lift (np_add ltl_left ltl_right) ;;
  loudness <- lift (np_max long_term_loudness) ;;
  ret (loudness, long_term_loudness).

(** Lines 136-155: the summary written to the console.  An f-string is
    evaluated before its line is printed. *)
Definition report (filename_sound : string) (db_max : Q) (field_type : string)
           (long_term_loudness short_term_loudness
              instantaneous_loudness_left instantaneous_loudness_right : vec)
  : M unit :=
  let indent := "                                " in
  print [Lit filename_sound; Lit nl; Lit nl] ;;
  print [Lit "Calibration level:      "; Flt db_max;
         Lit " dB SPL (RMS level of a full-scale sinusoid)"; Lit nl] ;;
  print [Lit "Field Type:  "; Lit field_type; Lit nl; Lit nl] ;;
  x <- lift (np_max long_term_loudness) ;;
  print [Lit "Maximum of long-term loudness:  "; Flt2 x; Lit " sone"; Lit nl] ;;
  p <- lift (sone_to_phon_tv2018 U long_term_loudness) ;;
  x <- lift (np_max p) ;;
  print [Lit indent; Flt2 x; Lit " phon"; Lit nl] ;;
  x <- lift (np_max short_term_loudness) ;;
  print [Lit "Maximum of short-term loudness: "; Flt2 x; Lit " sone"; Lit nl] ;;
  p <- lift (sone_to_phon_tv2018 U short_term_loudness) ;;
  x <- lift (np_max p) ;;
  print [Lit indent; Flt2 x; Lit " phon"; Lit nl] ;;
  print [Lit "Loudness over time:"; Lit nl] ;;
  x <- lift (np_max instantaneous_loudness_left) ;;
  print [Lit indent; Flt2 x; Lit " sone"; Lit nl] ;;
  x <- lift (np_max instantaneous_loudness_right) ;;
  print [Lit indent; Flt2 x; Lit " sone"; Lit nl].

(** Lines 70-163: the stages of the model, from the padded signal on. *)
Definition core (filename_sound : string) (db_max : Q) (field_type : string)
           (s : ndarray) (fs : Z) : M outputs :=
  '(isl_left, isl_right) <-
    instantaneous_specific_loudness s fs db_max field_type ;;
  '(stl_left, stl_right) <- short_term isl_left isl_right ;;
  '(loudness, long_term_loudness) <- long_term stl_left stl_right ;;
  short_term_loudness <- lift (np_add stl_left stl_right) ;;
  let instantaneous_loudness_left := np_div (np_sum_axis1 isl_left) 4 in
  let instantaneous_loudness_right := np_div (np_sum_axis1 isl_right) 4 in
  report filename_sound db_max field_type long_term_loudness
         short_term_loudness instantaneous_loudness_left
         instantaneous_loudness_right ;;
  ret {| loudness := loudness;
         short_term_loudness := short_term_loudness;
         long_term_loudness := long_term_loudness;
         instantaneous_loudness_left := instantaneous_loudness_left;
         instantaneous_loudness_right := instantaneous_loudness_right |}.

(** [tv2018(filename_sound, db_max, field_type, s, fs)]; [None] is the
    default of [s] and of [fs]. *)
Definition tv2018 (filename_sound : string) (db_max : Q) (field_type : string)
           (s : option ndarray) (fs : option Z) : M outputs :=
  '(s, fs) <- prepare filename_sound s fs ;;
  core filename_sound db_max field_type s fs.

End Pipeline.

(** The default of [field_type]. *)
Definition default_field_type : string := "free".

(** *** Vocabulary of the properties below *)

(** [kept] is what lines 78-88 retain of the matrix [full] a channel got
    from the filterbank stage: 32 frames are dropped at each end, the
    first retained frame is zero in every band, the later ones are the
    frames of [full] from index 33 on. *)
Definition retained (full kept : matrix) : Prop :=
  Z.of_nat (length kept) = Z.of_nat (length full) - 32 - 32 /\
  exists first rest,
    kept = first :: rest /\
    Forall (fun x => x = 0%Q) first /\
    length first = length (nth 32 full []) /\
    rest = firstn (length full - 65) (skipn 33 full).

(** The guard of 2048 zero rows, for a signal of [c] channels. *)
Definition guard (c : nat) : matrix := repeat (np_zeros c) 2048.

(** [U] with another cochlea stage. *)
Definition with_cochlea (U : Env) (stage : ndarray -> string -> res ndarray)
  : Env :=
  {| load := load U;
     resample := resample U;
     sound_field_to_cochlea := stage;
     filtered_signal_to_monaural_instantaneous_specific_loudness :=
       filtered_signal_to_monaural_instantaneous_specific_loudness U;
     instantaneous_specific_loudness_to_short_term_specific_loudness :=
       instantaneous_specific_loudness_to_short_term_specific_loudness U;
     monaural_specific_loudness_to_binaural_loudness_025 :=
       monaural_specific_loudness_to_binaural_loudness_025 U;
     short_term_loudness_to_long_term_loudness :=
       short_term_loudness_to_long_term_loudness U;
     sone_to_phon_tv2018 := sone_to_phon_tv2018 U |}.

(** [U] with a short-term integrator that returns the same matrix as the
    one of [U] and, as its second value, [other] of the input, that matrix
    and the value it replaces. *)
Definition with_short_term_scalar (U : Env)
           (other : matrix -> matrix -> vec -> vec) : Env :=
  {| load := load U;
     resample := resample U;
     sound_field_to_cochlea := sound_field_to_cochlea U;
     filtered_signal_to_monaural_instantaneous_specific_loudness :=
       filtered_signal_to_monaural_instantaneous_specific_loudness U;
     instantaneous_specific_loudness_to_short_term_specific_loudness :=
       fun m =>
         '(stsl, stl) <~
           instantaneous_specific_loudness_to_short_term_specific_loudness U m ;;
         Ok (stsl, other m stsl stl);
     monaural_specific_loudness_to_binaural_loudness_025 :=
       monaural_specific_loudness_to_binaural_loudness_025 U;
     short_term_loudness_to_long_term_loudness :=
       short_term_loudness_to_long_term_loudness U;
     sone_to_phon_tv2018 := sone_to_phon_tv2018 U |}.

(** [stl_left] and [stl_right] are the per-frame totals the binaural
    combiner attributes to the left and to the right on the rows of the two
    short-term specific loudness matrices, frame by frame; frames the right
    matrix has beyond the left one keep the 0 of [np.zeros]. *)
Definition combiner_totals (U : Env) (stsl_left stsl_right : matrix)
           (stl_left stl_right : vec) : Prop :=
  length stl_left = length stsl_left /\
  length stl_right = length stsl_right /\
  (forall i, (i < length stsl_left)%nat ->
     exists row_left row_right b l r,
       nth_error stsl_left i = Some row_left /\
       nth_error stsl_right i = Some row_right /\
       monaural_specific_loudness_to_binaural_loudness_025
         U row_left row_right = Ok (b, l, r) /\
       nth_error stl_left i = Some l /\
       nth_error stl_right i = Some r) /\
  (forall i, (length stsl_left <= i < length stsl_right)%nat ->
     nth_error stl_right i = Some 0%Q).

(** All five outputs hold no negative value. *)
Definition nonneg_outputs (o : outputs) : Prop :=
  (0 <= loudness o)%Q /\
  Forall (Qle 0) (short_term_loudness o) /\
  Forall (Qle 0) (long_term_loudness o) /\
  Forall (Qle 0) (instantaneous_loudness_left o) /\
  Forall (Qle 0) (instantaneous_loudness_right o).

End Tv2018.
Import Tv2018.

(** ** What the specification says of the functions of [mgsutils] *)

Module Mgsutils.

(** Modelled from the spec: [sone_to_phon_tv2018] is imported from
    [mgsutils], which is not among the translated sources.  The
    specification describes it as a pure, stateless map from a sone value
    to phon along the standard's monotonic piecewise curve, anchored at
    1 sone = 40 phon.  The curve is modelled as linear interpolation
    between the breakpoints (sone, phon) of a table, constant outside the
    table; the table itself is the standard's and is a parameter.
    [pos a b x] is the position of [x] on the segment from [a] to [b]. *)
Definition pos (a b x : Q) : Q := ((x - a) / (b - a))%Q.

(** Modelled from the spec: see [pos]; [p] is the breakpoint below [x],
    [rest] the breakpoints after [p]. *)
Fixpoint interpolate (x : Q) (p : Q * Q) (rest : list (Q * Q)) : Q :=
  match rest with
  | [] => snd p
  | q :: rest' =>
      if Qle_bool x (fst q)
      then (snd p + (snd q - snd p) * pos (fst p) (fst q) x)%Q
      else interpolate x q rest'
  end.

(** Modelled from the spec: the converter of [mgsutils] on one value (see
    [interpolate]); an empty table maps everything to 0. *)
Definition sone_to_phon_tv2018 (table : list (Q * Q)) (sone : Q) : Q :=
  match table with
  | [] => 0%Q
  | p :: rest => if Qle_bool sone (fst p) then snd p else interpolate sone p rest
  end.

(** A table is a curve when its sone column increases strictly. *)
Fixpoint increasing (p : Q * Q) (rest : list (Q * Q)) : Prop :=
  match rest with
  | [] => True
  | q :: rest' => (fst p < fst q)%Q /\ increasing q rest'
  end.

(** It is monotonic when its phon column never decreases. *)
Fixpoint rising (p : Q * Q) (rest : list (Q * Q)) : Prop :=
  match rest with
  | [] => True
  | q :: rest' => (snd p <= snd q)%Q /\ rising q rest'
  end.

Definition curve (table : list (Q * Q)) : Prop :=
  match table with
  | [] => True
  | p :: rest => increasing p rest /\ rising p rest
  end.

(** The anchor of the 1 kHz reference tone is a breakpoint. *)
Definition anchored (table : list (Q * Q)) : Prop :=
  exists p, In p table /\ (fst p == 1)%Q /\ (snd p == 40)%Q.

(** Modelled from the spec: the stages of the model are functions of
    [mgsutils], absent from the translated sources.  The specification
    gives their outputs as non-negative: the instantaneous specific
    loudness matrices of the filterbank stage, the three totals of the
    binaural combiner, the sequence of the long-term integrator. *)
Record nonneg_stages (U : Env) : Prop := {
  filterbank_nonneg :
    forall s fs db_max left right,
      filtered_signal_to_monaural_instantaneous_specific_loudness
        U s fs db_max = Ok (left, right) ->
      Forall (Forall (Qle 0)) left /\ Forall (Forall (Qle 0)) right;
  binaural_nonneg :
    forall row_left row_right b l r,
      monaural_specific_loudness_to_binaural_loudness_025
        U row_left row_right = Ok (b, l, r) ->
      (0 <= b)%Q /\ (0 <= l)%Q /\ (0 <= r)%Q;
  long_term_nonneg :
    forall stl ltl,
      short_term_loudness_to_long_term_loudness U stl = Ok ltl ->
      Forall (Qle 0) ltl
}.


End Mgsutils.

(** ** An executable instance

    To run the pipeline on concrete inputs the imported functions need
    bodies.  The ones below are stand-ins, not translations of [mgsutils]
    or scipy: each has the shape and the error behaviour of the function it
    stands for and a simple body.  A sample-and-hold resampler, a cochlea stage that
    only checks the field type, frame energies of 32 samples (1 ms at
    32 kHz) in two bands above a threshold, attack/release smoothing for the
    two integrators, plain band sums for the binaural totals.  The stages
    check their results and raise [NumericDomainError] on a negative one. *)

Module Demo.

Definition pick {A} (d : A) (l : list A) (num : nat) : list A :=
  map (fun j => nth (j * length l / num)%nat l d) (seq 0 num).

Definition resample (a : ndarray) (num : Z) : res ndarray :=
  if num <=? 0 then Err ValueError
  else match a with
       | Arr1 d => Ok (Arr1 (pick 0%Q d (Z.to_nat num)))
       | Arr2 c rows => Ok (Arr2 c (pick (np_zeros c) rows (Z.to_nat num)))
       end.

Definition sound_field_to_cochlea (s : ndarray) (field_type : string)
  : res ndarray :=
  if (String.eqb field_type "free" || String.eqb field_type "diffuse")%bool
  then Ok s else Err ConfigurationError.

Definition frames (l : list Q) : list (list Q) :=
  map (fun k => firstn 32 (skipn (32 * k) l)) (seq 0 (length l / 32)%nat).

Definition energy (frame : list Q) : Q :=
  fold_left (fun acc x => acc + x * x)%Q frame 0%Q.

Definition bands (gain : Q) (frame : list Q) : list Q :=
  let e := Qred (gain * energy frame) in
  [qmax 0 (Qred (e - (1 # 1000))); qmax 0 (Qred (e / 2 - (1 # 1000)))]%Q.

Definition filterbank (s : ndarray) (fs : Z) (db_max : Q)
  : res (matrix * matrix) :=
  if fs =? 32000 then
    match s with
    | Arr1 _ => Err ValueError
    | Arr2 c rows =>
        let channel k := map (fun r => nth k r 0%Q) rows in
        let isl k := map (bands (db_max / 100)%Q) (frames (channel k)) in
        Ok (isl 0%nat, isl (if (2 <=? c)%nat then 1%nat else 0%nat))
    end
  else Err ConfigurationError.

Definition smooth (attack release prev x : Q) : Q :=
  Qred (prev + (if Qle_bool prev x then attack else release) * (x - prev))%Q.

Fixpoint smooth_rows (prev : list Q) (m : matrix) : matrix :=
  match m with
  | [] => []
  | x :: rest =>
      let y := map2 (smooth (1 # 2)%Q (1 # 8)%Q) prev x in
      y :: smooth_rows y rest
  end.

Definition short_term_integrator (m : matrix) : res (matrix * vec) :=
  let y := smooth_rows (map (fun _ => 0%Q) (hd [] m)) m in
  Ok (y, np_sum_axis1 y).

Definition total (row : list Q) : Q := Qred (fold_left Qplus row 0%Q).

Definition binaural (row_left row_right : list Q) : res (Q * Q * Q) :=
  let l := total row_left in
  let r := total row_right in
  if (Qle_bool 0%Q l && Qle_bool 0%Q r)%bool
  then Ok ((l + r)%Q, l, r) else Err NumericDomainError.

Fixpoint smooth_vec (prev : Q) (v : vec) : vec :=
  match v with
  | [] => []
  | x :: rest =>
      let y := smooth (1 # 4)%Q (1 # 16)%Q prev x in
      y :: smooth_vec y rest
  end.

Definition long_term_integrator (stl : vec) : res vec :=
  let y := smooth_vec 0%Q stl in
  if forallb (Qle_bool 0%Q) y then Ok y else Err NumericDomainError.

Definition table : list (Q * Q) :=
  [(0, 0); (1 # 2, 30); (1, 40); (2, 50); (4, 60); (8, 70)]%Q.

Definition env : Env := {|
  load := fun _ => Err OSError;
  Tv2018.resample := resample;
  Tv2018.sound_field_to_cochlea := sound_field_to_cochlea;
  filtered_signal_to_monaural_instantaneous_specific_loudness := filterbank;
  instantaneous_specific_loudness_to_short_term_specific_loudness :=
    short_term_integrator;
  monaural_specific_loudness_to_binaural_loudness_025 := binaural;
  short_term_loudness_to_long_term_loudness := long_term_integrator;
  Tv2018.sone_to_phon_tv2018 :=
    fun v => Ok (map (Mgsutils.sone_to_phon_tv2018 table) v)
|}.

(** [n] samples alternating 1/2 and -1/2, as a one-dimensional array. *)
Definition samples (n : nat) : vec :=
  map (fun k => if Nat.even k then 1 # 2 else - (1 # 2))%Q (seq 0 n).

(** The same as a mono signal of shape (n, 1). *)
Definition tone (n : nat) : ndarray := Arr2 1 (map (fun x => [x]) (samples n)).

(** [tone 96] between its two guards. *)
Definition padded_tone : ndarray :=
  Arr2 1 (guard 1 ++ map (fun x => [x]) (samples 96) ++ guard 1).

(** [tone 48] with every sample held twice. *)
Definition held_tone : ndarray :=
  Arr2 1 (map (fun x => [x]) (flat_map (fun x => [x; x]) (samples 48))).

(** The run on [tone 96] at 32 kHz, and the one on [tone 48] at 16 kHz. *)
Definition run_32000 : M outputs :=
  tv2018 env "tone.wav" 100%Q "free" (Some (tone 96)) (Some 32000).
Definition run_16000 : M outputs :=
  tv2018 env "tone.wav" 100%Q "free" (Some (tone 48)) (Some 16000).

Definition no_outputs : outputs :=
  {| loudness := 0; short_term_loudness := []; long_term_loudness := [];
     instantaneous_loudness_left := []; instantaneous_loudness_right := [] |}.

(** What the first run returns, and the two matrices it retains. *)
Definition out_32000 : outputs :=
  Eval vm_compute in
    match result run_32000 with Ok o => o | Err _ => no_outputs end.
Definition isl_32000 : matrix * matrix :=
  Eval vm_compute in
    match result (instantaneous_specific_loudness
                    env padded_tone 32000 100%Q "free") with
    | Ok p => p
    | Err _ => ([], [])
    end.

End Demo.

(** ** Runs that differ in one imported function *)

Module Variants.

(** [U] reading files and resampling with other functions. *)
Definition with_io (U : Env) (load' : string -> res (ndarray * Z))
           (resample' : ndarray -> Z -> res ndarray) : Env :=
  {| load := load';
     resample := resample';
     sound_field_to_cochlea := sound_field_to_cochlea U;
     filtered_signal_to_monaural_instantaneous_specific_loudness :=
       filtered_signal_to_monaural_instantaneous_specific_loudness U;
     instantaneous_specific_loudness_to_short_term_specific_loudness :=
       instantaneous_specific_loudness_to_short_term_specific_loudness U;
     monaural_specific_loudness_to_binaural_loudness_025 :=
       monaural_specific_loudness_to_binaural_loudness_025 U;
     short_term_loudness_to_long_term_loudness :=
       short_term_loudness_to_long_term_loudness U;
     sone_to_phon_tv2018 := sone_to_phon_tv2018 U |}.

(** [U] with another filterbank stage. *)
Definition with_filterbank (U : Env)
           (stage : ndarray -> Z -> Q -> res (matrix * matrix)) : Env :=
  {| load := load U;
     resample := resample U;
     sound_field_to_cochlea := sound_field_to_cochlea U;
     filtered_signal_to_monaural_instantaneous_specific_loudness := stage;
     instantaneous_specific_loudness_to_short_term_specific_loudness :=
       instantaneous_specific_loudness_to_short_term_specific_loudness U;
     monaural_specific_loudness_to_binaural_loudness_025 :=
       monaural_specific_loudness_to_binaural_loudness_025 U;
     short_term_loudness_to_long_term_loudness :=
       short_term_loudness_to_long_term_loudness U;
     sone_to_phon_tv2018 := sone_to_phon_tv2018 U |}.

(** [U] with a binaural combiner that returns the same left and right
    totals as the one of [U] and, as the first value of its triple, [other]
    of the two rows and of the value it replaces. *)
Definition with_binaural_total (U : Env) (other : list Q -> list Q -> Q -> Q)
  : Env :=
  {| load := load U;
     resample := resample U;
     sound_field_to_cochlea := sound_field_to_cochlea U;
     filtered_signal_to_monaural_instantaneous_specific_loudness :=
       filtered_signal_to_monaural_instantaneous_specific_loudness U;
     instantaneous_specific_loudness_to_short_term_specific_loudness :=
       instantaneous_specific_loudness_to_short_term_specific_loudness U;
     monaural_specific_loudness_to_binaural_loudness_025 :=
       fun row_left row_right =>
         '(b, l, r) <~
           monaural_specific_loudness_to_binaural_loudness_025
             U row_left row_right ;;
         Ok (other row_left row_right b, l, r);
     short_term_loudness_to_long_term_loudness :=
       short_term_loudness_to_long_term_loudness U;
     sone_to_phon_tv2018 := sone_to_phon_tv2018 U |}.

(** [U] with another sone-to-phon converter. *)
Definition with_converter (U : Env) (converter : vec -> res vec) : Env :=
  {| load := load U;
     resample := resample U;
     sound_field_to_cochlea := sound_field_to_cochlea U;
     filtered_signal_to_monaural_instantaneous_specific_loudness :=
       filtered_signal_to_monaural_instantaneous_specific_loudness U;
     instantaneous_specific_loudness_to_short_term_specific_loudness :=
       instantaneous_specific_loudness_to_short_term_specific_loudness U;
     monaural_specific_loudness_to_binaural_loudness_025 :=
       monaural_specific_loudness_to_binaural_loudness_025 U;
     short_term_loudness_to_long_term_loudness :=
       short_term_loudness_to_long_term_loudness U;
     sone_to_phon_tv2018 := converter |}.

(** Three more of the lines the pipeline prints. *)
Definition info_loading : line := [Lit "[Info] Loading sound file..."].
Definition info_filterbank : line :=
  [Lit "[Info] Filtered signal to monaural instantaneous specific loudness"].
Definition line_loudness (x : Q) : line :=
  [Lit "Maximum of long-term loudness:  "; Flt2 x; Lit " sone"; Lit nl].

(** The five announcements of a run that reaches its last stage. *)
Definition stage_lines : list line :=
  [info_cochlea;
   info_filterbank;
   [Lit "[Info] Instantaneous specific loudness to short term specific loudness"];
   [Lit "[Info] Monaural specific loudness to binaural loudness"];
   [Lit "[Info] Short term loudness to long term loudness"]].

(** The ten lines of the summary, given the six maxima they show. *)
Definition summary_lines (filename_sound : string) (db_max : Q)
           (field_type : string)
           (long_sone long_phon short_sone short_phon left_sone right_sone : Q)
  : list line :=
  let indent := "                                " in
  [[Lit filename_sound; Lit nl; Lit nl];
   [Lit "Calibration level:      "; Flt db_max;
    Lit " dB SPL (RMS level of a full-scale sinusoid)"; Lit nl];
   [Lit "Field Type:  "; Lit field_type; Lit nl; Lit nl];
   line_loudness long_sone;
   [Lit indent; Flt2 long_phon; Lit " phon"; Lit nl];
   [Lit "Maximum of short-term loudness: "; Flt2 short_sone; Lit " sone"; Lit nl];
   [Lit indent; Flt2 short_phon; Lit " phon"; Lit nl];
   [Lit "Loudness over time:"; Lit nl];
   [Lit indent; Flt2 left_sone; Lit " sone"; Lit nl];
   [Lit indent; Flt2 right_sone; Lit " sone"; Lit nl]].

(** The instance with a filterbank stage that keeps only the first [n]
    frames of each channel. *)
Definition short_filterbank (n : nat) : Env :=
  with_filterbank Demo.env
    (fun s fs db_max =>
       '(isl_left, isl_right) <~ Demo.filterbank s fs db_max ;;
       Ok (firstn n isl_left, firstn n isl_right)).

(** The filterbank stage of the instance, refusing to run at any rate but
    32 kHz with another exception than the instance's. *)
Definition filterbank_at_32000 (s : ndarray) (fs : Z) (db_max : Q)
  : res (matrix * matrix) :=
  if fs =? 32000 then Demo.filterbank s fs db_max else Err OSError.

End Variants.
Import Variants.

(** * The reference values of [roughness_ecma/input/references.py]

    Four functions return a reference roughness for a carrier frequency
    [fc] and a modulation frequency [fmod]: each picks the table of the
    carrier and interpolates in it with numpy's [interp].  The decimal
    literals of the source are kept as the rationals they denote. *)

Module References.

(** What a call does: it returns a number, it raises, or it returns a
    number that numpy's documentation does not determine. *)
Inductive error : Type :=
| UnboundLocalError
| ValueError.

Inductive outcome : Type :=
| Returns (y : Q)
| Raises (e : error)
| Unspecified.

Definition Qlt_bool (x y : Q) : bool := negb (Qle_bool y x).

(** [np.all(np.diff(a :: rest) > 0)], the check numpy's documentation gives
    for the sample points of [interp]. *)
Fixpoint increasing (a : Q) (rest : list Q) : bool :=
  match rest with
  | [] => true
  | b :: rest' => Qlt_bool a b && increasing b rest'
  end.

(** [interp] at [x], not below the sample point [a] whose value is [fa];
    [rest] holds the later sample points with their values.  The segment of
    [x] starts at the last sample point not above [x]; on the last sample
    point and beyond, and at a sample point itself, the value is the
    sample's; inside a segment it is [slope * (x - a) + fa]. *)
Fixpoint interp_from (x a fa : Q) (rest : list (Q * Q)) : Q :=
  match rest with
  | [] => fa
  | (b, fb) :: rest' =>
      if Qle_bool b x then interp_from x b fb rest'
      else if Qeq_bool a x then fa
      else ((fb - fa) / (b - a) * (x - a) + fa)%Q
  end.

(** [np.interp(x, xp, fp)] for a scalar [x], without [left], [right] and
    [period]: [ValueError] when [xp] is empty or [fp] has another length;
    below [xp[0]] the value is [fp[0]], above [xp[-1]] it is [fp[-1]].
    numpy does not check that [xp] is increasing, and its documentation
    calls the results nonsense when it is not: the model gives no number
    then. *)
Definition np_interp (x : Q) (xp fp : list Q) : outcome :=
  match xp, fp with
  | [], _ => Raises ValueError
  | _ :: _, [] => Raises ValueError
  | a :: xs, fa :: fs =>
      if negb (length xs =? length fs)%nat then Raises ValueError
      else if negb (increasing a xs) then Unspecified
      else if Qlt_bool x a then Returns fa
      else Returns (interp_from x a fa (combine xs fs))
  end.

(** [np.arange(start, stop, step)] on integers, for a positive step. *)
Definition arange (start stop step : Z) : list Q :=
  map (fun i => inject_Z (start + Z.of_nat i * step))
      (seq 0 (Z.to_nat ((stop - start + step - 1) / step))).

(** A local name is bound to a pair of tables, or not bound yet. *)
Definition tables : Type := option (list Q * list Q).

(** [interp(fmod, xp, fp)] on two local names: [UnboundLocalError] when no
    branch has bound them. *)
Definition interp_bound (fmod : Q) (t : tables) : outcome :=
  match t with
  | None => Raises UnboundLocalError
  | Some (xp, fp) => np_interp fmod xp fp
  end.


(** [ref_zf], line 23. *)
Definition zf_fm_125 : list Q :=
  [10.022323; 14.848474; 22.114502; 24.942839; 27.836662; 31.386786;
   34.207447; 36.984425; 39.57145; 43.002625; 47.327793; 51.28128;
   57.166443; 62.746964; 67.984726; 75.005325; 82.11216; 88.736916;
   93.929695; 101.51012; 106.34942; 105.52151; 139.52977; 179.7899;
   226.8836; 618.8289]%Q.

(** [ref_zf], line 54. *)
Definition zf_R_125 : list Q :=
  [0.08789206; 0.15167634; 0.2644867; 0.29879957; 0.32463667; 0.3400558;
   0.34709367; 0.33893484; 0.3292617; 0.31324393; 0.2748609; 0.24245752;
   0.20193195; 0.1835343; 0.16109457; 0.12749602; 0.10928232; 0.09564932;
   0.08615938; 0.07580507; 0.07027298; 0.070275314; 0.0409089; 0.02875568;
   0.018735673; 0.0032628998]%Q.

(** [ref_zf], line 86. *)
Definition zf_fm_250 : list Q :=
  [9.866886; 12.62216; 27.420376; 32.75557; 38.11424; 43.422382; 49.456688;
   57.491714; 65.77677; 79.65614; 87.87329; 105.86451; 129.53415; 156.846;
   166.90276; 164.31425; 194.89453; 236.00826; 320.22247; 996.67883]%Q.

(** [ref_zf], line 111. *)
Definition zf_R_250 : list Q :=
  [0.08789789; 0.12193831; 0.3708092; 0.43099418; 0.4755579; 0.49039465;
   0.47503302; 0.41672865; 0.34165177; 0.24969354; 0.20581095; 0.15120474;
   0.10822188; 0.07665783; 0.07013886; 0.07014351; 0.05207635; 0.037664894;
   0.022104176; 0.0031560503]%Q.

(** [ref_zf], line 137. *)
Definition zf_fm_500 : list Q :=
  [11.409495; 30.487507; 33.946957; 36.913254; 39.927513; 42.292023;
   46.705784; 50.772938; 52.936295; 56.059425; 59.361572; 63.18659;
   66.90265; 71.01811; 74.79408; 78.56848; 83.38223; 94.163795; 113.73634;
   149.61226; 228.0776; 269.4534; 343.64062; 438.18573; 536.22815; 1831.6288]%Q.

(** [ref_zf], line 168. *)
Definition zf_R_500 : list Q :=
  [0.10152269; 0.4159882; 0.48784226; 0.53730124; 0.58255917; 0.61374336;
   0.65500504; 0.67568153; 0.6826773; 0.68430084; 0.6717034; 0.6593232;
   0.6337642; 0.6012624; 0.56008166; 0.5258434; 0.47217426; 0.38673645;
   0.2821931; 0.1763591; 0.08655889; 0.06439575; 0.04328783; 0.02805619;
   0.020718602; 0.0024511195]%Q.

(** [ref_zf], line 200. *)
Definition zf_fm_1000 : list Q :=
  [11.087001; 13.655874; 17.425774; 22.323097; 28.37367; 34.94905;
   42.370758; 49.96757; 56.425716; 63.209957; 69.42832; 74.194626;
   81.15967; 87.05505; 95.19742; 103.28752; 112.92756; 137.10373;
   160.75127; 193.66571; 220.964; 246.33324; 284.3601; 332.1115; 402.6136;
   472.69742; 578.35956; 700.3975; 2566.1887]%Q.

(** [ref_zf], line 234. *)
Definition zf_R_1000 : list Q :=
  [0.10113691; 0.13728729; 0.19609652; 0.27899456; 0.39539358; 0.5409575;
   0.7005437; 0.8453598; 0.9321353; 0.98051274; 0.99174285; 0.9837013;
   0.9491586; 0.90162235; 0.80737907; 0.7173512; 0.6151961; 0.44188514;
   0.34071133; 0.25057378; 0.19783457; 0.16634719; 0.13030091; 0.10086449;
   0.07060981; 0.05522989; 0.03911979; 0.02859039; 0.0032180264]%Q.

(** [ref_zf], line 269. *)
Definition zf_fm_2000 : list Q :=
  [9.91285; 14.026899; 42.67351; 48.009727; 51.526123; 55.798893; 58.02824;
   63.2473; 68.39307; 73.18517; 78.91965; 85.31508; 94.640015; 97.87623;
   112.84719; 116.1008; 134.20557; 142.05911; 176.54396; 208.32822;
   247.7417; 325.8978; 392.00952; 472.19678; 560.03955; 661.0346; 2300.151]%Q.

(** [ref_zf], line 301. *)
Definition zf_R_2000 : list Q :=
  [0.0769564; 0.12057757; 0.5939494; 0.68385667; 0.7424558; 0.78007925;
   0.7985556; 0.8280814; 0.8409192; 0.8384773; 0.8165356; 0.78357395;
   0.69696763; 0.65123534; 0.5195601; 0.49169108; 0.3902205; 0.3513164;
   0.2457958; 0.18558311; 0.13721035; 0.08642737; 0.0607108; 0.043004807;
   0.031432506; 0.02523464; 0.0031944455]%Q.

(** [ref_zf], line 334. *)
Definition zf_fm_4000 : list Q :=
  [11.3765; 15.561241; 43.589268; 47.646236; 51.401146; 56.619133;
   59.81015; 63.843525; 67.08531; 70.85759; 74.06288; 77.41061; 81.33141;
   87.916466; 97.7758; 100.33316; 115.681206; 119.01259; 134.40422;
   148.2887; 177.72102; 205.42125; 235.5931; 272.31946; 296.5826;
   330.12863; 406.07715; 481.70474; 562.59235; 1862.4557]%Q.

(** [ref_zf], line 369. *)
Definition zf_R_4000 : list Q :=
  [0.07075734; 0.10967778; 0.4784683; 0.52834743; 0.5683734; 0.6097778;
   0.6274577; 0.6473149; 0.6522843; 0.6521323; 0.6452131; 0.6333704;
   0.62010473; 0.57756937; 0.51043147; 0.48305747; 0.38639748; 0.36280885;
   0.29872113; 0.2538336; 0.18619592; 0.1454662; 0.11394783; 0.08948974;
   0.07725139; 0.06268515; 0.04557176; 0.03472703; 0.026881821; 0.003147697]%Q.

(** [ref_zf], line 405. *)
Definition zf_fm_8000 : list Q :=
  [9.403103; 17.80395; 55.790886; 61.60936; 66.79713; 70.92175; 76.48056;
   82.46687; 90.54218; 94.376076; 105.48482; 109.09549; 122.24679;
   143.51547; 183.9545; 219.89703; 266.57776; 336.44156; 435.79315;
   561.5252; 1394.7712]%Q.

(** [ref_zf], line 431. *)
Definition zf_R_8000 : list Q :=
  [0.03535737; 0.09006271; 0.40631378; 0.42686793; 0.43575785; 0.4356466;
   0.42647484; 0.40776858; 0.3738506; 0.35563606; 0.29824737; 0.2837258;
   0.2342281; 0.17965466; 0.11587502; 0.08544585; 0.05986661; 0.04003583;
   0.026355661; 0.017170433; 0.0031515576]%Q.

(** [ref_dw], line 478. *)
Definition dw_fm_125 : list Q :=
  [1.0355988; 10.355987; 11.132686; 13.851132; 18.511328; 20.064724;
   24.724918; 31.32686; 41.423946; 49.967636; 57.34628; 64.33657; 72.10356;
   90.74434; 79.4822; 86.084145; 91.909386; 100.45307]%Q.

(** [ref_dw], line 501. *)
Definition dw_R_125 : list Q :=
  [0.0; 0.04359673; 0.09468665; 0.16416894; 0.19482289; 0.27656674;
   0.3113079; 0.34196186; 0.32356948; 0.26226157; 0.20299728; 0.15803815;
   0.11512262; 0.0619891; 0.09264305; 0.07016349; 0.05177112; 0.03950954]%Q.

(** [ref_dw], line 525. *)
Definition dw_fm_250 : list Q :=
  [0.7373272; 3.9324117; 9.585254; 14.2549925; 16.71275; 19.907835;
   22.611366; 23.594471; 29.493088; 30.47619; 37.112137; 41.29032;
   47.926266; 50.13825; 51.121353; 53.08756; 54.07066; 56.774193;
   58.248848; 62.427036; 61.68971; 69.308754; 68.57143; 71.27496; 73.73272;
   73.97849; 75.207375; 79.139786; 79.139786; 84.792625; 90.19969;
   97.81874; 104.70046; 112.31951; 120.92166; 129.76959]%Q.

(** [ref_dw], line 566. *)
Definition dw_R_250 : list Q :=
  [0.00432277; 0.00576369; 0.06340057; 0.16138329; 0.17435159; 0.26945245;
   0.32132566; 0.3443804; 0.42651296; 0.44668588; 0.47694525; 0.4668588;
   0.42651296; 0.46253604; 0.41210374; 0.4020173; 0.43948126; 0.37463978;
   0.39193085; 0.3631124; 0.3429395; 0.3040346; 0.28242075; 0.27521613;
   0.259366; 0.24207492; 0.24351585; 0.2204611; 0.20461094; 0.17146975;
   0.14697406; 0.11815562; 0.09942363; 0.07636888; 0.05619597; 0.04322766]%Q.

(** [ref_dw], line 608. *)
Definition dw_fm_500 : list Q :=
  [7.6375403; 15.79288; 20.841423; 26.666666; 30.93851; 34.43366; 40.2589;
   44.919094; 49.190937; 51.521034; 57.34628; 64.33657; 69.77346; 74.04531;
   81.42395; 87.63754; 94.23948; 102.78317; 116.763756; 129.57928;
   140.84143; 149.77347; 160.2589]%Q.

(** [ref_dw], line 636. *)
Definition dw_R_500 : list Q :=
  [0.04972752; 0.1253406; 0.23569483; 0.35013625; 0.46457765; 0.5258856;
   0.619891; 0.67302454; 0.69346046; 0.69550407; 0.6873297; 0.67098093;
   0.6321526; 0.57901907; 0.5074932; 0.4400545; 0.38487738; 0.3153951;
   0.22752044; 0.16621253; 0.11920981; 0.08651226; 0.06811989]%Q.

(** [ref_dw], line 665. *)
Definition dw_fm_1000 : list Q :=
  [0.0; 3.884415; 9.7237625; 17.147604; 29.302307; 37.933605; 48.504757;
   55.145306; 55.948395; 57.480103; 60.618927; 63.314735; 65.28852;
   67.201035; 69.55657; 76.14433; 77.2943; 82.847725; 83.352325; 88.26008;
   89.019806; 93.92756; 94.4309; 97.78904; 99.06719; 104.23258; 103.963005;
   106.03293; 109.89504; 111.18953; 115.05101; 117.38172; 119.95311;
   125.630646; 132.60141; 137.24963; 144.47617; 151.19432; 159.97737]%Q.

(** [ref_dw], line 709. *)
Definition dw_R_1000 : list Q :=
  [0.0; 0.00211198; 0.03450088; 0.1382977; 0.40437; 0.60555416; 0.80238307;
   0.89103884; 0.9516347; 0.90182984; 0.9753813; 0.92339617; 0.9969634;
   0.92983717; 0.9882475; 0.9556905; 0.92104256; 0.89138556; 0.86107534;
   0.83503467; 0.7960629; 0.7700222; 0.736826; 0.71946436; 0.6819286;
   0.6529984; 0.6284707; 0.62555665; 0.5764418; 0.5764243; 0.52586645;
   0.52727795; 0.48683867; 0.44491437; 0.40008652; 0.3726063; 0.3205599;
   0.29016566; 0.24531329]%Q.

(** [ref_dw], line 754. *)
Definition dw_fm_2000 : list Q :=
  [0.0; 4.4051557; 7.5956764; 10.048887; 12.017292; 15.69636; 17.911657;
   20.366364; 20.619616; 25.28251; 27.987852; 30.20053; 31.18548; 34.37525;
   34.38161; 39.782192; 39.298134; 42.23989; 42.981316; 45.18539; 44.95683;
   46.663754; 48.13538; 50.358532; 53.04068; 55.264206; 56.971127;
   58.68778; 60.890354; 62.367218; 62.84529; 65.06246; 67.00842; 68.48715;
   71.90736; 73.62214; 76.79096; 79.24305; 81.67831; 85.10337; 91.45038;
   93.655945; 96.586105; 96.33435; 98.04801; 106.5901; 107.57281;
   115.62524; 118.07209; 120.26419; 121.97673; 129.54285; 131.255;
   134.91576; 135.15628; 136.87106; 144.92911; 159.83092]%Q.

(** [ref_dw], line 817. *)
Definition dw_R_2000 : list Q :=
  [0.00271003; 0.00538277; 0.04194128; 0.06631085; 0.10694477; 0.1407891;
   0.18955104; 0.21934068; 0.250504; 0.30331025; 0.35477808; 0.39405492;
   0.41708192; 0.4509304; 0.47396567; 0.54031587; 0.55929023; 0.5809457;
   0.60803974; 0.6161512; 0.674419; 0.65407926; 0.66761696; 0.74483424;
   0.71229106; 0.7908634; 0.7705236; 0.7854143; 0.78810567; 0.8206137;
   0.779959; 0.83549607; 0.79482895; 0.83411205; 0.8164678; 0.8245834;
   0.78255093; 0.8028555; 0.76218426; 0.76215523; 0.7119658; 0.7254973;
   0.7051472; 0.67940396; 0.6834545; 0.6088561; 0.62375295; 0.5478037;
   0.549138; 0.5138889; 0.5138744; 0.4487694; 0.44739988; 0.41484842;
   0.39994115; 0.40805677; 0.3524327; 0.27371538]%Q.

(** [ref_dw], line 881. *)
Definition dw_fm_4000 : list Q :=
  [3.1950846; 16.221199; 23.840246; 29.984638; 30.230415; 37.112137;
   37.603687; 45.714287; 51.85868; 57.265743; 63.90169; 68.57143; 74.47005;
   78.156685; 82.33487; 88.97082; 98.064514; 108.14132; 115.02304;
   123.870964; 128.78648; 133.21045; 143.04147; 151.39784; 155.08449;
   157.29646; 160.24577]%Q.

(** [ref_dw], line 913. *)
Definition dw_R_4000 : list Q :=
  [0.00432277; 0.11383285; 0.23054755; 0.29538906; 0.31123918; 0.39337176;
   0.41066283; 0.50864553; 0.5907781; 0.62680113; 0.6426513; 0.65273774;
   0.64841497; 0.6440922; 0.6152738; 0.5720461; 0.5158501; 0.45677233;
   0.41210374; 0.3631124; 0.34149855; 0.3184438; 0.2795389; 0.24495678;
   0.24783862; 0.23919308; 0.24063401]%Q.

(** [ref_dw], line 946. *)
Definition dw_fm_8000 : list Q :=
  [4.6498036; 7.1022663; 8.569778; 16.16957; 23.037289; 24.018497;
   25.735521; 27.451048; 30.885843; 33.578465; 34.319515; 38.48526;
   40.206398; 42.654747; 45.355972; 50.995964; 52.953144; 55.896774;
   56.631092; 60.54957; 61.772808; 63.238823; 66.18058; 68.86871; 70.58611;
   72.78196; 74.744; 78.409225; 80.61181; 82.31723; 86.23272; 87.20532;
   90.384995; 91.11295; 96.73499; 100.39909; 106.50631; 117.26071;
   127.28154; 137.0596; 145.37276; 154.66376; 159.55597]%Q.

(** [ref_dw], line 994. *)
Definition dw_R_8000 : list Q :=
  [0.0053807; 0.02704024; 0.0256728; 0.08251926; 0.14614701; 0.15562384;
   0.17186953; 0.18269515; 0.21789658; 0.22329386; 0.24903294; 0.27338803;
   0.30453888; 0.31129324; 0.3478559; 0.3952338; 0.39521724; 0.42364773;
   0.42499653; 0.43986857; 0.4398582; 0.4330707; 0.4547261; 0.44386315;
   0.46146387; 0.43976498; 0.4573636; 0.44107231; 0.4437637; 0.4180039;
   0.42203578; 0.40034726; 0.39761028; 0.3759238; 0.35826093; 0.3379046;
   0.30533242; 0.2686558; 0.23334044; 0.20480223; 0.18711658; 0.1667126;
   0.16396113]%Q.

(** [ref_ps], line 1062. *)
Definition ps_x_250 : list Q := arange 20 140 10.

(** [ref_ps], line 1064. *)
Definition ps_y_250 : list Q :=
  [0.22274093; 0.40159333; 0.49485818; 0.49003562; 0.402682; 0.32469746;
   0.25295672; 0.20614693; 0.17648213; 0.15149577; 0.13118783; 0.11399959]%Q.

(** [ref_ps], line 1083. *)
Definition ps_x_1000 : list Q := arange 20 170 10.

(** [ref_ps], line 1085. *)
Definition ps_y_1000 : list Q :=
  [0.23987818; 0.43430352; 0.63348603; 0.840501; 0.9649883; 1.0053802;
   0.9725802; 0.8790393; 0.77616817; 0.64682287; 0.56887937; 0.5018503;
   0.4488377; 0.3927176; 0.34127373]%Q.

(** [ref_ps], line 1107. *)
Definition ps_x_4000 : list Q := arange 20 170 10.

(** [ref_ps], line 1109. *)
Definition ps_y_4000 : list Q :=
  [0.22429857; 0.3782322; 0.46526212; 0.52741647; 0.6067358; 0.6222046;
   0.59563285; 0.54726654; 0.45841187; 0.39915878; 0.35237116; 0.30403143;
   0.27594423; 0.23695582; 0.2213363]%Q.

(** [ref_ecma], line 1148. *)
Definition ecma_fmod_vector : list Q :=
  [20; 30; 40; 50; 60; 70; 80; 90; 100; 120; 140; 160; 200; 300; 400]%Q.

(** [ref_ecma], line 1151. *)
Definition ecma_R_125 : list Q :=
  [0.234; 0.305; 0.285; 0.232; 0.174; 0.138; 0.105; 0.0808; 0.0631; 0.0406;
   0.0325; 0.0297; 0.0469; 0.174; 0.0437]%Q.

(** [ref_ecma], line 1154. *)
Definition ecma_R_250 : list Q :=
  [0.211; 0.38; 0.471; 0.461; 0.384; 0.321; 0.258; 0.209; 0.172; 0.12;
   0.0802; 0.0573; 0.0365; 0.0296; 0.0527]%Q.

(** [ref_ecma], line 1157. *)
Definition ecma_R_500 : list Q :=
  [0.197; 0.375; 0.536; 0.636; 0.633; 0.594; 0.514; 0.434; 0.366; 0.27;
   0.208; 0.155; 0.0925; 0.0305; 0.0147]%Q.

(** [ref_ecma], line 1160. *)
Definition ecma_R_1000 : list Q :=
  [0.234; 0.46; 0.701; 0.898; 0.977; 1.0; 0.92; 0.801; 0.685; 0.501; 0.376;
   0.289; 0.196; 0.0912; 0.0419]%Q.

(** [ref_ecma], line 1163. *)
Definition ecma_R_2000 : list Q :=
  [0.186; 0.348; 0.52; 0.668; 0.744; 0.787; 0.754; 0.678; 0.599; 0.464;
   0.371; 0.302; 0.212; 0.103; 0.0536]%Q.

(** [ref_ecma], line 1166. *)
Definition ecma_R_4000 : list Q :=
  [0.184; 0.327; 0.477; 0.605; 0.675; 0.721; 0.698; 0.629; 0.551; 0.426;
   0.342; 0.28; 0.207; 0.111; 0.0648]%Q.

(** [ref_ecma], line 1169. *)
Definition ecma_R_8000 : list Q :=
  [0.0909; 0.168; 0.248; 0.319; 0.359; 0.386; 0.372; 0.324; 0.272; 0.193;
   0.145; 0.112; 0.0771; 0.0383; 0.021]%Q.

(** [ref_zf(fc, fmod)], lines 6-457: one [if]/[elif] chain on the carrier. *)
Definition ref_zf (fc : Z) (fmod : Q) : outcome :=
  let fm_R : tables :=
    if fc =? 125 then Some (zf_fm_125, zf_R_125)
    else if fc =? 250 then Some (zf_fm_250, zf_R_250)
    else if fc =? 500 then Some (zf_fm_500, zf_R_500)
    else if fc =? 1000 then Some (zf_fm_1000, zf_R_1000)
    else if fc =? 2000 then Some (zf_fm_2000, zf_R_2000)
    else if fc =? 4000 then Some (zf_fm_4000, zf_R_4000)
    else if fc =? 8000 then Some (zf_fm_8000, zf_R_8000)
    else None in
  interp_bound fmod fm_R.

(** [ref_dw(fc, fmod)], lines 460-1042: one [if] after the other, each
    binding [fm] and [R] anew when its carrier matches. *)
Definition ref_dw (fc : Z) (fmod : Q) : outcome :=
  let t : tables := None in
  let t := if fc =? 125 then Some (dw_fm_125, dw_R_125) else t in
  let t := if fc =? 250 then Some (dw_fm_250, dw_R_250) else t in
  let t := if fc =? 500 then Some (dw_fm_500, dw_R_500) else t in
  let t := if fc =? 1000 then Some (dw_fm_1000, dw_R_1000) else t in
  let t := if fc =? 2000 then Some (dw_fm_2000, dw_R_2000) else t in
  let t := if fc =? 4000 then Some (dw_fm_4000, dw_R_4000) else t in
  let t := if fc =? 8000 then Some (dw_fm_8000, dw_R_8000) else t in
  interp_bound fmod t.

(** [ref_ps(fc, fmod)], lines 1045-1129. *)
Definition ref_ps (fc : Z) (fmod : Q) : outcome :=
  let t : tables := None in
  let t := if fc =? 250 then Some (ps_x_250, ps_y_250) else t in
  let t := if fc =? 1000 then Some (ps_x_1000, ps_y_1000) else t in
  let t := if fc =? 4000 then Some (ps_x_4000, ps_y_4000) else t in
  interp_bound fmod t.

(** [ref_ecma(fc, fmod)], lines 1132-1172: [fmod_vector] is bound before
    the branches, [R] in them. *)
Definition ref_ecma (fc : Z) (fmod : Q) : outcome :=
  let R : option (list Q) := None in
  let R := if fc =? 125 then Some ecma_R_125 else R in
  let R := if fc =? 250 then Some ecma_R_250 else R in
  let R := if fc =? 500 then Some ecma_R_500 else R in
  let R := if fc =? 1000 then Some ecma_R_1000 else R in
  let R := if fc =? 2000 then Some ecma_R_2000 else R in
  let R := if fc =? 4000 then Some ecma_R_4000 else R in
  let R := if fc =? 8000 then Some ecma_R_8000 else R in
  match R with
  | None => Raises UnboundLocalError
  | Some R => np_interp fmod ecma_fmod_vector R
  end.

(** The carriers each function has a table for. *)
Definition carriers : list Z := [125; 250; 500; 1000; 2000; 4000; 8000].
Definition carriers_ps : list Z := [250; 1000; 4000].

(** Every value of a table lies in [[lo, hi]]. *)
Definition within (lo hi : Q) (fp : list Q) : bool :=
  forallb (fun v => Qle_bool lo v && Qle_bool v hi) fp.

(** [xp] and [fp] are tables [interp] is documented for: as long as each
    other, not empty, [xp] increasing. *)
Definition sorted_tables (xp fp : list Q) : bool :=
  match xp, fp with
  | a :: xs, _ :: fs => (length xs =? length fs)%nat && increasing a xs
  | _, _ => false
  end.

(** They are as long as each other and not empty, but [xp] is not
    increasing. *)
Definition unsorted_tables (xp fp : list Q) : bool :=
  match xp, fp with
  | a :: xs, _ :: fs => (length xs =? length fs)%nat && negb (increasing a xs)
  | _, _ => false
  end.

(** The tables of [ref_ecma] and of [ref_ps] by carrier. *)
Definition ecma_tables : list (Z * list Q) :=
  [(125, ecma_R_125); (250, ecma_R_250); (500, ecma_R_500);
   (1000, ecma_R_1000); (2000, ecma_R_2000); (4000, ecma_R_4000);
   (8000, ecma_R_8000)].
Definition ps_tables : list (Z * (list Q * list Q)) :=
  [(250, (ps_x_250, ps_y_250)); (1000, (ps_x_1000, ps_y_1000));
   (4000, (ps_x_4000, ps_y_4000))].

End References.

(** ** Laws of the monad *)

Section MonadLaws.

Context {A B : Type}.

Lemma result_bind (m : M A) (k : A -> M B) :
  result (bind m k) = res_bind (result m) (fun a => result (k a)).
Proof.
  destruct m as [out [a | e]]; simpl; [ destruct (k a) | ]; reflexivity.
Qed.

Lemma result_lift (r : res A) : result (lift r) = r.
Proof. reflexivity. Qed.

Lemma bind_lift_ok (a : A) (k : A -> M B) : bind (lift (Ok a)) k = k a.
Proof. unfold bind, lift. simpl. destruct (k a). reflexivity. Qed.

Lemma bind_lift_err (e : exn) (k : A -> M B) :
  bind (lift (Err e)) k = ([], Err e).
Proof. reflexivity. Qed.

Lemma bind_ret (a : A) (k : A -> M B) : bind (ret a) k = k a.
Proof. apply bind_lift_ok. Qed.

(** A run that returns went through each of its steps. *)
Lemma bind_ok (m : M A) (k : A -> M B) (b : B) :
  result (bind m k) = Ok b ->
  exists a, result m = Ok a /\ result (k a) = Ok b.
Proof.
  rewrite result_bind. destruct (result m) as [a | e]; simpl; [ eauto | discriminate ].
Qed.

(** Two continuations with the same results give the same result. *)
Lemma result_bind_ext (m : M A) (k1 k2 : A -> M B) :
  (forall a, result (k1 a) = result (k2 a)) ->
  result (bind m k1) = result (bind m k2).
Proof.
  intros H. rewrite !result_bind. destruct (result m); simpl; auto.
Qed.

Lemma res_bind_ok (r : res A) (k : A -> res B) (b : B) :
  res_bind r k = Ok b -> exists a, r = Ok a /\ k a = Ok b.
Proof. destruct r as [a | e]; simpl; [ eauto | discriminate ]. Qed.

End MonadLaws.

Lemma bind_print {B} (l : line) (k : unit -> M B) :
  bind (print l) k = (l :: printed (k tt), result (k tt)).
Proof. unfold bind, print. destruct (k tt). reflexivity. Qed.

(** Inversion of a run that returned: one step at a time. *)
Ltac step_ok H :=
  let a := fresh "v" in
  let H1 := fresh "Hstep" in
  apply bind_ok in H; destruct H as (a & H1 & H).

Ltac steps_ok H :=
  repeat (first
    [ step_ok H
    | match type of H with
      | result (match ?x with _ => _ end) = Ok _ => destruct x
      | result (let _ := _ in _) = Ok _ => cbv zeta in H
      end ]).

(** ** Facts about the numpy operations *)

Section NumpyFacts.

Lemma firstn_In {A} (n : nat) (l : list A) (x : A) :
  In x (firstn n l) -> In x l.
Proof.
  revert l; induction n as [| n IH]; intros [| y l]; simpl; try tauto.
  intros [-> | H]; auto.
Qed.

Lemma skipn_In {A} (n : nat) (l : list A) (x : A) :
  In x (skipn n l) -> In x l.
Proof.
  revert l; induction n as [| n IH]; intros [| y l]; simpl; auto.
Qed.

Lemma py_slice_In {A} (start stop : Z) (l : list A) (x : A) :
  In x (py_slice start stop l) -> In x l.
Proof. unfold py_slice. intros H. eapply skipn_In, firstn_In, H. Qed.

(** [l[32:-32]] keeps [len(l) - 64] items when there are that many, and
    none otherwise. *)
Lemma shorten_length (m : matrix) :
  length (shorten m) = (length m - 64)%nat.
Proof.
  unfold shorten, py_slice, slice_bound.
  change (32 <? 0) with false. change (-32 <? 0) with true. cbv iota.
  rewrite length_firstn, length_skipn. lia.
Qed.

Lemma shorten_eq (m : matrix) :
  shorten m = firstn (length m - 64) (skipn 32 m).
Proof.
  unfold shorten, py_slice, slice_bound.
  change (32 <? 0) with false. change (-32 <? 0) with true. cbv iota.
  destruct (Nat.le_gt_cases (length m) 64) as [Hle | Hgt].
  - replace (length m - 64)%nat with 0%nat by lia.
    replace (Z.to_nat _) with 0%nat by lia. reflexivity.
  - f_equal; [ lia | f_equal; lia ].
Qed.

Lemma start_with_zero_spec (m m' : matrix) :
  start_with_zero m = Ok m' <->
  exists first rest, m = first :: rest /\ m' = map (fun _ => 0%Q) first :: rest.
Proof.
  unfold start_with_zero. destruct m as [| r rest]; simpl; split.
  - discriminate.
  - intros (? & ? & ? & _). discriminate.
  - intros [= <-]. eauto.
  - intros (? & ? & [= <- <-] & ->). reflexivity.
Qed.

Lemma zeros_are_zero {A} (r : list A) :
  Forall (fun x => x = 0%Q) (map (fun _ => 0%Q) r).
Proof. induction r; simpl; constructor; auto. Qed.

End NumpyFacts.

(** ** Boundary trimming (lines 78-88) *)

Lemma shorten_then_zero (full kept : matrix) :
  start_with_zero (shorten full) = Ok kept -> retained full kept.
Proof.
  intros H. apply start_with_zero_spec in H as (first & rest & Hs & ->).
  assert (Hlen : length (shorten full) = S (length rest)) by now rewrite Hs.
  rewrite shorten_length in Hlen.
  rewrite shorten_eq in Hs.
  split; [ simpl; lia | ].
  exists (map (fun _ => 0%Q) first), rest. repeat split.
  - apply zeros_are_zero.
  - rewrite length_map. f_equal.
    replace (length full - 64)%nat with (S (length rest)) in Hs by lia.
    change (nth 32 full []) with (nth (32 + 0) full []). rewrite <- nth_skipn.
    destruct (skipn 32 full) as [| r t]; simpl in Hs; [ discriminate | ].
    injection Hs as -> _. reflexivity.
  - replace (length full - 64)%nat with (S (length rest)) in Hs by lia.
    replace (length full - 65)%nat with (length rest) by lia.
    change 33%nat with (1 + 32)%nat. rewrite <- skipn_skipn.
    destruct (skipn 32 full) as [| r t]; simpl in Hs; [ discriminate | ].
    injection Hs as _ Hrest. symmetry. exact Hrest.
Qed.

(** The step succeeds exactly on a matrix of more than 64 frames. *)
Lemma shorten_then_zero_defined (full : matrix) :
  (exists kept, start_with_zero (shorten full) = Ok kept) <->
  (64 < length full)%nat.
Proof.
  split.
  - intros (kept & H). apply shorten_then_zero in H as (Hlen & first & rest & -> & _).
    simpl length in Hlen. lia.
  - intros H. pose proof (shorten_length full) as Hlen.
    destruct (shorten full) as [| r t] eqn:E; simpl in Hlen; [ lia | ].
    eexists. reflexivity.
Qed.

(** C2.  Whenever the pipeline gets past its trimming step, each channel's
    instantaneous specific loudness matrix is the one the filterbank stage
    returned for the padded signal with 32 frames removed at each end: the
    retained frame count is that matrix's frame count minus 32 and minus 32,
    and the first retained frame is exactly zero in every band, whatever the
    stage computed there. *)
Theorem retained_frames
        (U : Env) (s : ndarray) (fs : Z) (db_max : Q) (field_type : string)
        (isl_left isl_right : matrix) :
  result (instantaneous_specific_loudness U s fs db_max field_type)
  = Ok (isl_left, isl_right) ->
  exists cochlea left right,
    sound_field_to_cochlea U s field_type = Ok cochlea /\
    filtered_signal_to_monaural_instantaneous_specific_loudness
      U cochlea fs db_max = Ok (left, right) /\
    retained left isl_left /\ retained right isl_right.
Proof.
  unfold instantaneous_specific_loudness. intros H.
  steps_ok H. injection H as <- <-.
  simpl in *. eauto 10 using shorten_then_zero.
Qed.

(** ** The headline value (lines 115-125) *)

Lemma fold_qmax_spec (rest : vec) (x : Q) :
  let m := fold_left qmax rest x in
  In m (x :: rest) /\ (x <= m)%Q /\ Forall (fun y => y <= m)%Q rest.
Proof.
  revert x. induction rest as [| y rest IH]; intros x; simpl.
  - repeat split; [ auto | apply Qle_refl | constructor ].
  - destruct (IH (qmax x y)) as (Hin & Hle & Hall).
    assert (Hx : (x <= qmax x y)%Q /\ (y <= qmax x y)%Q).
    { unfold qmax. destruct (Qle_bool x y) eqn:E.
      - apply Qle_bool_iff in E. split; [ exact E | apply Qle_refl ].
      - split; [ apply Qle_refl | ].
        destruct (Qlt_le_dec y x) as [Hlt | Hge].
        + apply Qlt_le_weak, Hlt.
        + apply Qle_bool_iff in Hge. congruence. }
    destruct Hx as (Hx & Hy). repeat split.
    + destruct Hin as [Hin | Hin]; [ | auto ].
      unfold qmax in Hin at 1. destruct (Qle_bool x y); rewrite <- Hin; auto.
    + eapply Qle_trans; eauto.
    + constructor; [ eapply Qle_trans; eauto | exact Hall ].
Qed.

(** [np.max] returns an element of the array that none exceeds. *)
Lemma np_max_spec (a : vec) (x : Q) :
  np_max a = Ok x -> In x a /\ Forall (fun y => y <= x)%Q a.
Proof.
  destruct a as [| y rest]; simpl; [ discriminate | ].
  intros [= <-]. destruct (fold_qmax_spec rest y) as (Hin & Hle & Hall).
  split; [ exact Hin | constructor; assumption ].
Qed.

(** A run of [tv2018] that returned, taken apart. *)
Lemma tv2018_ok (U : Env) (filename_sound : string) (db_max : Q)
      (field_type : string) (s : option ndarray) (fs : option Z) (out : outputs) :
  result (tv2018 U filename_sound db_max field_type s fs) = Ok out ->
  exists padded fs' isl_left isl_right stl_left stl_right,
    result (prepare U filename_sound s fs) = Ok (padded, fs') /\
    result (instantaneous_specific_loudness U padded fs' db_max field_type)
    = Ok (isl_left, isl_right) /\
    result (short_term U isl_left isl_right) = Ok (stl_left, stl_right) /\
    result (long_term U stl_left stl_right)
    = Ok (loudness out, long_term_loudness out) /\
    np_add stl_left stl_right = Ok (short_term_loudness out) /\
    instantaneous_loudness_left out = np_div (np_sum_axis1 isl_left) 4 /\
    instantaneous_loudness_right out = np_div (np_sum_axis1 isl_right) 4.
Proof.
  unfold tv2018, core. intros H. steps_ok H. injection H as <-.
  simpl in *. do 6 eexists. repeat split; eassumption.
Qed.

(** C3.  The loudness a run returns is the maximum over the frames of the
    long-term sequence it returns, and that sequence is the sum of the two
    sequences the long-term integrator produced for the left and the right
    short-term totals. *)
Theorem loudness_is_max_of_long_term
        (U : Env) (filename_sound : string) (db_max : Q) (field_type : string)
        (s : option ndarray) (fs : option Z) (out : outputs) :
  result (tv2018 U filename_sound db_max field_type s fs) = Ok out ->
  exists stl_left stl_right ltl_left ltl_right,
    np_add stl_left stl_right = Ok (short_term_loudness out) /\
    short_term_loudness_to_long_term_loudness U stl_left = Ok ltl_left /\
    short_term_loudness_to_long_term_loudness U stl_right = Ok ltl_right /\
    np_add ltl_left ltl_right = Ok (long_term_loudness out) /\
    (length ltl_left = length ltl_right ->
     long_term_loudness out = map2 Qplus ltl_left ltl_right) /\
    In (loudness out) (long_term_loudness out) /\
    Forall (fun x => x <= loudness out)%Q (long_term_loudness out).
Proof.
  intros H.
  apply tv2018_ok in H
    as (padded & fs' & isl_l & isl_r & stl_l & stl_r & _ & _ & _ & H & Hst & _).
  unfold long_term in H. steps_ok H. injection H as <- <-. simpl in *.
  apply np_max_spec in Hstep3 as (Hin & Hall).
  exists stl_l, stl_r, v0, v1. repeat split; try assumption.
  intros Hlen. unfold np_add in Hstep2.
  apply Nat.eqb_eq in Hlen. rewrite Hlen in Hstep2. congruence.
Qed.

(** ** The scalar of the short-term integrator (lines 91-113) *)

Lemma bind_ext {A B} (m : M A) (k1 k2 : A -> M B) :
  (forall a, k1 a = k2 a) -> bind m k1 = bind m k2.
Proof.
  intros H. destruct m as [out [a | e]]; simpl; [ rewrite H | ]; reflexivity.
Qed.

Lemma short_term_scalar_unused
      (U : Env) (other : matrix -> matrix -> vec -> vec)
      (isl_left isl_right : matrix) :
  short_term (with_short_term_scalar U other) isl_left isl_right
  = short_term U isl_left isl_right.
Proof.
  unfold short_term. cbn [with_short_term_scalar
    instantaneous_specific_loudness_to_short_term_specific_loudness].
  f_equal.
  destruct (instantaneous_specific_loudness_to_short_term_specific_loudness
              U isl_left) as [[stsl_left stl_left] | e]; [ | reflexivity ].
  cbn [res_bind]. rewrite !bind_lift_ok.
  destruct (instantaneous_specific_loudness_to_short_term_specific_loudness
              U isl_right) as [[stsl_right stl_right] | e]; reflexivity.
Qed.

Lemma set_item_spec (a a' : vec) (i : nat) (v : Q) :
  set_item a i v = Ok a' ->
  length a' = length a /\
  nth_error a' i = Some v /\
  forall j, j <> i -> nth_error a' j = nth_error a j.
Proof.
  revert i a'. induction a as [| x a IH]; intros [| i] a'; simpl;
    try discriminate.
  - intros [= <-]. repeat split. intros [| j] Hj; [ congruence | reflexivity ].
  - unfold res_map. intros H. apply res_bind_ok in H as (t & Ht & [= <-]).
    apply IH in Ht as (Hlen & Hi & Hj). simpl. repeat split; auto.
    intros [| j] Hne; [ reflexivity | ]. simpl. apply Hj. congruence.
Qed.

(** One turn of the loop writes the combiner's two totals at index [i] and
    nothing else. *)
Lemma binaural_step_spec (U : Env) (stsl_left stsl_right : matrix)
      (a b a' b' : vec) (i : nat) :
  binaural_step U stsl_left stsl_right (a, b) i = Ok (a', b') ->
  (exists row_left row_right t l r,
      nth_error stsl_left i = Some row_left /\
      nth_error stsl_right i = Some row_right /\
      monaural_specific_loudness_to_binaural_loudness_025
        U row_left row_right = Ok (t, l, r) /\
      nth_error a' i = Some l /\ nth_error b' i = Some r) /\
  length a' = length a /\ length b' = length b /\
  forall j, j <> i ->
    nth_error a' j = nth_error a j /\ nth_error b' j = nth_error b j.
Proof.
  unfold binaural_step, get_row. intros H.
  destruct (nth_error stsl_left i) as [row_left |] eqn:El; [ | discriminate ].
  destruct (nth_error stsl_right i) as [row_right |] eqn:Er; [ | discriminate ].
  cbn [res_bind] in H.
  apply res_bind_ok in H as ([[t l] r] & Hd & H).
  apply res_bind_ok in H as (a1 & Ha & H).
  apply res_bind_ok in H as (b1 & Hb & [= <- <-]).
  apply set_item_spec in Ha as (Hla & Hai & Haj).
  apply set_item_spec in Hb as (Hlb & Hbi & Hbj).
  repeat split; auto. exists row_left, row_right, t, l, r. auto.
Qed.

(** The loop over [seq k n] writes the indices from [k] to [k + n - 1]. *)
Lemma binaural_loop_spec (U : Env) (stsl_left stsl_right : matrix)
      (n k : nat) (a b a' b' : vec) :
  for_range (binaural_step U stsl_left stsl_right) (seq k n) (a, b)
  = Ok (a', b') ->
  length a' = length a /\ length b' = length b /\
  (forall i, (k <= i < k + n)%nat ->
     exists row_left row_right t l r,
       nth_error stsl_left i = Some row_left /\
       nth_error stsl_right i = Some row_right /\
       monaural_specific_loudness_to_binaural_loudness_025
         U row_left row_right = Ok (t, l, r) /\
       nth_error a' i = Some l /\ nth_error b' i = Some r) /\
  (forall j, ~ (k <= j < k + n)%nat ->
     nth_error a' j = nth_error a j /\ nth_error b' j = nth_error b j).
Proof.
  revert k a b. induction n as [| n IH]; intros k a b; simpl.
  - intros [= <- <-]. repeat split; intros; lia.
  - intros H. apply res_bind_ok in H as ([a1 b1] & Hstep & H).
    apply binaural_step_spec in Hstep as (Hk & Hla & Hlb & Hframe).
    apply IH in H as (Hla' & Hlb' & Hin & Hout).
    split; [ congruence | ]. split; [ congruence | ]. split.
    + intros i Hi. destruct (Nat.eq_dec i k) as [-> | Hne].
      * destruct Hk as (rl & rr & t & l & r & H1 & H2 & H3 & H4 & H5).
        destruct (Hout k) as (Ea & Eb); [ lia | ].
        exists rl, rr, t, l, r. repeat split; congruence.
      * apply Hin. lia.
    + intros j Hj. destruct (Hout j) as (Ea & Eb); [ lia | ].
      destruct (Hframe j) as (Fa & Fb); [ lia | ].
      split; congruence.
Qed.

Lemma nth_error_np_zeros (n i : nat) :
  (i < n)%nat -> nth_error (np_zeros n) i = Some 0%Q.
Proof.
  intros H. unfold np_zeros. rewrite nth_error_repeat; auto.
Qed.

(** Lines 90-113 taken apart. *)
Lemma short_term_ok (U : Env) (isl_left isl_right : matrix)
      (stl_left stl_right : vec) :
  result (short_term U isl_left isl_right) = Ok (stl_left, stl_right) ->
  exists stsl_left unused_left stsl_right unused_right,
    instantaneous_specific_loudness_to_short_term_specific_loudness U isl_left
    = Ok (stsl_left, unused_left) /\
    instantaneous_specific_loudness_to_short_term_specific_loudness U isl_right
    = Ok (stsl_right, unused_right) /\
    combiner_totals U stsl_left stsl_right stl_left stl_right.
Proof.
  unfold short_term. intros H. steps_ok H. simpl in Hstep0, Hstep1, H.
  do 4 eexists. split; [ eassumption | ]. split; [ eassumption | ].
  apply binaural_loop_spec in H as (Hla & Hlb & Hin & Hout).
  unfold np_zeros in Hla, Hlb. rewrite repeat_length in Hla, Hlb.
  unfold combiner_totals. repeat split; auto.
  - intros i Hi. apply Hin. lia.
  - intros i Hi. destruct (Hout i) as (_ & ->); [ lia | ].
    apply nth_error_np_zeros. lia.
Qed.

(** C4.  The second value the short-term integrator returns is dead: with
    an integrator that returns anything else in its place, [tv2018] prints
    and returns the same, all five outputs included.  The short-term totals
    of a run that returns are the binaural combiner's per-frame left and
    right totals, and the long-term sequence and the loudness are computed
    from those. *)
Theorem short_term_scalar_is_dead
        (U : Env) (other : matrix -> matrix -> vec -> vec)
        (filename_sound : string) (db_max : Q) (field_type : string)
        (s : option ndarray) (fs : option Z) :
  tv2018 (with_short_term_scalar U other) filename_sound db_max field_type s fs
  = tv2018 U filename_sound db_max field_type s fs /\
  forall out,
    result (tv2018 U filename_sound db_max field_type s fs) = Ok out ->
    exists stsl_left stsl_right stl_left stl_right,
      combiner_totals U stsl_left stsl_right stl_left stl_right /\
      np_add stl_left stl_right = Ok (short_term_loudness out) /\
      result (long_term U stl_left stl_right)
      = Ok (loudness out, long_term_loudness out).
Proof.
  split.
  - unfold tv2018. apply bind_ext. intros [padded fs'].
    unfold core. apply bind_ext. intros [isl_left isl_right].
    rewrite short_term_scalar_unused. reflexivity.
  - intros out H.
    apply tv2018_ok in H
      as (padded & fs' & isl_l & isl_r & stl_l & stl_r
          & _ & _ & Hst & Hlt & Hadd & _).
    apply short_term_ok in Hst as (stsl_l & ul & stsl_r & ur & _ & _ & Hc).
    exists stsl_l, stsl_r, stl_l, stl_r. auto.
Qed.

(** ** The file name (lines 54-56 and 136) *)

Lemma report_result (U : Env) (name1 name2 : string) (db_max : Q)
      (field_type : string) (ltl stl left right : vec) :
  result (report U name1 db_max field_type ltl stl left right)
  = result (report U name2 db_max field_type ltl stl left right).
Proof.
  unfold report. cbv zeta. rewrite !bind_print. reflexivity.
Qed.

Lemma core_result (U : Env) (name1 name2 : string) (db_max : Q)
      (field_type : string) (s : ndarray) (fs : Z) :
  result (core U name1 db_max field_type s fs)
  = result (core U name2 db_max field_type s fs).
Proof.
  unfold core.
  apply result_bind_ext; intros [isl_left isl_right].
  apply result_bind_ext; intros [stl_left stl_right].
  apply result_bind_ext; intros [loudness long_term_loudness].
  apply result_bind_ext; intros short_term_loudness. cbv zeta.
  rewrite !result_bind. rewrite (report_result U name1 name2). reflexivity.
Qed.

(** In the model two runs that differ in the file name alone end alike. *)
Lemma tv2018_result_of_name
      (U : Env) (name1 name2 : string) (db_max : Q) (field_type : string)
      (s : ndarray) (fs : Z) :
  result (tv2018 U name1 db_max field_type (Some s) (Some fs))
  = result (tv2018 U name2 db_max field_type (Some s) (Some fs)).
Proof.
  unfold tv2018.
  change (prepare U name1 (Some s) (Some fs))
    with (prepare U name2 (Some s) (Some fs)).
  apply result_bind_ext; intros [padded fs']. apply core_result.
Qed.

(** C9.  When the caller supplies both the samples and the sampling rate,
    the file of that name is never opened, whatever [load] would do with
    it, and the name reaches the console only: two runs that differ in
    [filename_sound] alone and both return, return the same five outputs.
    (A name the console cannot encode makes line 136 raise before the
    return; such a run returns nothing.) *)
Theorem filename_sound_is_not_read
        (U : Env) (name1 name2 : string) (db_max : Q) (field_type : string)
        (s : ndarray) (fs : Z) :
  (forall load',
      tv2018 (with_io U load' (resample U)) name1 db_max field_type
             (Some s) (Some fs)
      = tv2018 U name1 db_max field_type (Some s) (Some fs)) /\
  forall out1 out2,
    result (tv2018 U name1 db_max field_type (Some s) (Some fs)) = Ok out1 ->
    result (tv2018 U name2 db_max field_type (Some s) (Some fs)) = Ok out2 ->
    out1 = out2.
Proof.
  split.
  - intros load'. reflexivity.
  - intros out1 out2 H1 H2.
    rewrite (tv2018_result_of_name U name1 name2) in H1.
    rewrite H1 in H2. injection H2 as ->. reflexivity.
Qed.

(** ** Before the first stage (lines 54-71) *)

Lemma np_pad_1d (d : vec) : np_pad (Arr1 d) pad_width = Err ValueError.
Proof. reflexivity. Qed.

Lemma np_pad_axis0 (c b e : nat) (rows : matrix) :
  np_pad (Arr2 c rows) [(b, e); (0, 0)]%nat
  = Ok (Arr2 c (repeat (np_zeros c) b ++ rows ++ repeat (np_zeros c) e)).
Proof.
  unfold np_pad. cbv zeta. change (0 + c + 0)%nat with (c + 0)%nat.
  rewrite Nat.add_0_r. do 3 f_equal. f_equal.
  induction rows as [| r rows IH]; [ reflexivity | ].
  cbn [map]. rewrite IH. unfold np_zeros. cbn [repeat app].
  rewrite app_nil_r. reflexivity.
Qed.

Lemma np_pad_2d (c : nat) (rows : matrix) :
  np_pad (Arr2 c rows) pad_width = Ok (Arr2 c (guard c ++ rows ++ guard c)).
Proof. apply np_pad_axis0. Qed.

Lemma guard_is_zero (c : nat) :
  Forall (Forall (fun x => x = 0%Q)) (guard c).
Proof.
  unfold guard. apply Forall_forall. intros r Hr.
  apply repeat_spec in Hr as ->. apply Forall_forall. intros x Hx.
  apply repeat_spec in Hx. exact Hx.
Qed.

(** What [prepare] returns is the signal brought to 32 kHz, padded. *)
Lemma prepare_ok (U : Env) (filename_sound : string)
      (s : option ndarray) (fs : option Z) (padded : ndarray) (fs' : Z) :
  result (prepare U filename_sound s fs) = Ok (padded, fs') ->
  exists signal,
    result ('(s, fs) <- load_input U filename_sound s fs ;;
            to_operating_rate U s fs) = Ok (signal, 32000) /\
    np_pad signal pad_width = Ok padded /\
    fs' = 32000.
Proof.
  unfold prepare. intros H. steps_ok H. simpl in H. injection H as <- <-.
  simpl in Hstep1. exists n0.
  assert (z0 = 32000).
  { unfold to_operating_rate in Hstep0.
    destruct (z =? 32000) eqn:E; cbn [negb] in Hstep0.
    - apply Z.eqb_eq in E. injection Hstep0 as _ <-. exact E.
    - steps_ok Hstep0. injection Hstep0 as _ <-. reflexivity. }
  subst z0. repeat split; [ | assumption ].
  rewrite result_bind, Hstep. simpl. exact Hstep0.
Qed.

Lemma cochlea_stage_at_padded
      (U : Env) (stage : ndarray -> string -> res ndarray)
      (filename_sound : string) (db_max : Q) (field_type : string)
      (s : ndarray) (fs : Z) :
  stage s field_type = sound_field_to_cochlea U s field_type ->
  core (with_cochlea U stage) filename_sound db_max field_type s fs
  = core U filename_sound db_max field_type s fs.
Proof.
  intros H. unfold core, instantaneous_specific_loudness.
  cbn [with_cochlea sound_field_to_cochlea]. rewrite H. reflexivity.
Qed.

(** C5.  The first stage of the model, the field-to-cochlea transform,
    receives a signal that is already padded: the signal at 32 kHz between
    two guards of 2048 zero rows each, 2048 being 64 ms at 32 kHz.  The
    padding is done by numpy's [pad] before the stages; the stages add
    none, since the run depends on the cochlea stage through its value at
    exactly that padded signal. *)
Theorem cochlea_receives_padded_signal
        (U : Env) (filename_sound : string) (db_max : Q) (field_type : string)
        (s : option ndarray) (fs : option Z) (padded : ndarray) (fs' : Z) :
  result (prepare U filename_sound s fs) = Ok (padded, fs') ->
  (exists c rows,
      result ('(s, fs) <- load_input U filename_sound s fs ;;
              to_operating_rate U s fs) = Ok (Arr2 c rows, 32000) /\
      padded = Arr2 c (guard c ++ rows ++ guard c) /\
      Forall (Forall (fun x => x = 0%Q)) (guard c) /\
      Z.of_nat (length (guard c)) = 32000 / 1000 * 64) /\
  fs' = 32000 /\
  forall stage,
    stage padded field_type = sound_field_to_cochlea U padded field_type ->
    tv2018 (with_cochlea U stage) filename_sound db_max field_type s fs
    = tv2018 U filename_sound db_max field_type s fs.
Proof.
  intros H. pose proof H as Hprep.
  apply prepare_ok in H as (signal & Hsig & Hpad & ->).
  split; [ | split; [ reflexivity | ] ].
  - destruct signal as [d | c rows]; [ rewrite np_pad_1d in Hpad; discriminate | ].
    rewrite np_pad_2d in Hpad. injection Hpad as <-.
    exists c, rows. split; [ assumption | ]. split; [ reflexivity | ].
    split; [ apply guard_is_zero | ].
    unfold guard. rewrite repeat_length. reflexivity.
  - intros stage Hstage. unfold tv2018.
    change (prepare (with_cochlea U stage) filename_sound s fs)
      with (prepare U filename_sound s fs).
    destruct (prepare U filename_sound s fs) as [out [[p z] | e]];
      [ | reflexivity ].
    simpl in Hprep. injection Hprep as -> ->.
    unfold bind. rewrite cochlea_stage_at_padded by assumption. reflexivity.
Qed.

(** ** Another sampling rate (lines 58-63) *)

Lemma bind_assoc {A B C} (m : M A) (k : A -> M B) (h : B -> M C) :
  bind (bind m k) h = bind m (fun a => bind (k a) h).
Proof.
  destruct m as [out [a | e]]; simpl; [ | reflexivity ].
  destruct (k a) as [out' [b | e]]; simpl; [ | reflexivity ].
  destruct (h b) as [out'' r]. rewrite app_assoc. reflexivity.
Qed.

Lemma to_operating_rate_32000 (U : Env) (s : ndarray) :
  to_operating_rate U s 32000 = ret (s, 32000).
Proof. reflexivity. Qed.

Lemma to_operating_rate_other (U : Env) (s : ndarray) (fs : Z) :
  fs <> 32000 ->
  to_operating_rate U s fs
  = (print warning_resampled ;;
     num <- lift (int_div (32000 * len s) fs) ;;
     resampled <- lift (resample U s num) ;;
     ret (resampled, 32000)).
Proof.
  intros H. unfold to_operating_rate.
  apply Z.eqb_neq in H. rewrite H. reflexivity.
Qed.

(** The run at another rate, in terms of the run at 32 kHz. *)
Lemma tv2018_at_other_rate
      (U : Env) (filename_sound : string) (db_max : Q) (field_type : string)
      (s : ndarray) (fs : Z) :
  fs <> 32000 ->
  tv2018 U filename_sound db_max field_type (Some s) (Some fs)
  = (print warning_resampled ;;
     num <- lift (int_div (32000 * len s) fs) ;;
     resampled <- lift (resample U s num) ;;
     tv2018 U filename_sound db_max field_type (Some resampled) (Some 32000)).
Proof.
  intros H. unfold tv2018, prepare, load_input.
  rewrite bind_ret, to_operating_rate_other by assumption.
  rewrite !bind_assoc. apply bind_ext; intros _.
  rewrite ?bind_assoc. apply bind_ext; intros num.
  rewrite ?bind_assoc. apply bind_ext; intros resampled.
  rewrite !bind_ret, to_operating_rate_32000, bind_ret. reflexivity.
Qed.

(** X17.  Given samples at a rate other than 32 kHz, [tv2018] prints a
    warning, computes the new length int(32000 * len(s) / fs), resamples,
    and goes on as the run on the resampled signal at 32 kHz; an exception
    of the division or of [resample] ends it.  When the rate is not 0 and
    [resample] returns, it ends as that run ends and prints what that run
    prints after the warning. *)
Theorem other_rate_is_resampled
        (U : Env) (filename_sound : string) (db_max : Q) (field_type : string)
        (s : ndarray) (fs : Z) :
  fs <> 32000 ->
  let run := tv2018 U filename_sound db_max field_type in
  run (Some s) (Some fs)
  = (print warning_resampled ;;
     num <- lift (int_div (32000 * len s) fs) ;;
     resampled <- lift (resample U s num) ;;
     run (Some resampled) (Some 32000)) /\
  forall resampled,
    fs <> 0 ->
    resample U s (Z.quot (32000 * len s) fs) = Ok resampled ->
    result (run (Some s) (Some fs)) = result (run (Some resampled) (Some 32000)) /\
    printed (run (Some s) (Some fs))
    = warning_resampled :: printed (run (Some resampled) (Some 32000)).
Proof.
  intros H run. subst run. split; [ apply tv2018_at_other_rate, H | ].
  intros resampled H0 Hres. rewrite tv2018_at_other_rate by assumption.
  unfold int_div. apply Z.eqb_neq in H0. rewrite H0.
  rewrite bind_print, bind_lift_ok, Hres, bind_lift_ok. split; reflexivity.
Qed.

(** ** A rate the stages are not made for (lines 70-76) *)



(** ** A one-dimensional signal (line 68) *)

(** C10.  [np.pad] with a pad width of two pairs needs two axes: on a
    one-dimensional array it raises [ValueError], on shape (N, 1) it
    returns.  A run on a one-dimensional signal therefore ends in an
    exception before the first stage is announced, given that resampling
    returns an array of as many dimensions as it receives. *)
Theorem one_dimensional_signal_is_refused
        (U : Env) (filename_sound : string) (db_max : Q) (field_type : string)
        (d : vec) :
  (forall d' num a, resample U (Arr1 d') num = Ok a -> ndim a = 1%nat) ->
  np_pad (Arr1 d) pad_width = Err ValueError /\
  (forall rows, exists padded, np_pad (Arr2 1 rows) pad_width = Ok padded) /\
  tv2018 U filename_sound db_max field_type (Some (Arr1 d)) (Some 32000)
  = ([], Err ValueError) /\
  forall fs,
    let run :=
      tv2018 U filename_sound db_max field_type (Some (Arr1 d)) (Some fs) in
    (exists e, result run = Err e) /\
    printed run = (if fs =? 32000 then [] else [warning_resampled]).
Proof.
  intros Hndim.
  assert (H32 : tv2018 U filename_sound db_max field_type
                       (Some (Arr1 d)) (Some 32000) = ([], Err ValueError))
    by reflexivity.
  split; [ reflexivity | ].
  split; [ intros rows; rewrite np_pad_2d; eauto | ].
  split; [ exact H32 | ].
  intros fs run. subst run. destruct (fs =? 32000) eqn:E.
  - apply Z.eqb_eq in E. subst fs. rewrite H32. simpl. eauto.
  - apply Z.eqb_neq in E. rewrite tv2018_at_other_rate by assumption.
    rewrite bind_print.
    destruct (int_div (32000 * len (Arr1 d)) fs) as [num | e];
      [ | rewrite bind_lift_err; simpl; eauto ].
    rewrite bind_lift_ok.
    destruct (resample U (Arr1 d) num) as [a | e] eqn:R;
      [ | rewrite bind_lift_err; simpl; eauto ].
    rewrite bind_lift_ok. apply Hndim in R.
    destruct a as [d' | c rows]; [ | discriminate ].
    change (tv2018 U filename_sound db_max field_type
                   (Some (Arr1 d')) (Some 32000)) with (@nil line, @Err outputs ValueError).
    simpl. eauto.
Qed.

(** ** Non-negative outputs *)

Section NonNegative.

Local Abbreviation nonneg := (Forall (Qle 0)).

Lemma np_zeros_nonneg (n : nat) : nonneg (np_zeros n).
Proof.
  apply Forall_forall. intros x Hx. apply repeat_spec in Hx as ->.
  apply Qle_refl.
Qed.

Lemma set_item_nonneg (a a' : vec) (i : nat) (v : Q) :
  set_item a i v = Ok a' -> nonneg a -> (0 <= v)%Q -> nonneg a'.
Proof.
  revert i a'. induction a as [| x a IH]; intros [| i] a'; simpl;
    try discriminate.
  - intros [= <-] Ha Hv. inversion Ha; subst. constructor; assumption.
  - unfold res_map. intros H Ha Hv.
    apply res_bind_ok in H as (t & Ht & [= <-]).
    inversion Ha; subst. constructor; [ assumption | eapply IH; eauto ].
Qed.

Lemma map2_plus_nonneg (a b : vec) :
  nonneg a -> nonneg b -> nonneg (map2 Qplus a b).
Proof.
  intros Ha. revert b. induction Ha as [| x a Hx Ha IH]; intros b Hb.
  - constructor.
  - destruct Hb as [| y b Hy Hb]; simpl; constructor.
    + change 0%Q with (0 + 0)%Q. apply Qplus_le_compat; assumption.
    + apply IH, Hb.
Qed.

Lemma map_plus_nonneg (a : vec) (f : Q -> Q) :
  nonneg a -> (forall x, 0 <= x -> 0 <= f x)%Q -> nonneg (map f a).
Proof.
  intros Ha Hf. induction Ha; simpl; constructor; auto.
Qed.

Lemma np_add_nonneg (a b c : vec) :
  np_add a b = Ok c -> nonneg a -> nonneg b -> nonneg c.
Proof.
  unfold np_add. intros H Ha Hb.
  destruct (length a =? length b)%nat.
  - injection H as <-. apply map2_plus_nonneg; assumption.
  - assert (Hsum : forall x y : Q, (0 <= x -> 0 <= y -> 0 <= x + y)%Q).
    { intros x y Hx Hy. change 0%Q with (0 + 0)%Q.
      apply Qplus_le_compat; assumption. }
    assert (Hcase : (exists y, b = [y] /\ c = map (fun x => x + y)%Q a) \/
                    (exists x, a = [x] /\ c = map (fun y => x + y)%Q b)).
    { destruct a as [| x [| x' a]]; destruct b as [| y [| y' b]];
        try discriminate H; injection H as <-;
        first [ left; eexists; split; reflexivity
              | right; eexists; split; reflexivity ]. }
    destruct Hcase as [(y & -> & ->) | (x & -> & ->)];
      (apply map_plus_nonneg; [ assumption | ]);
      intros z Hz; apply Hsum; try assumption;
      first [ exact (Forall_inv Ha) | exact (Forall_inv Hb) ].
Qed.

Lemma sum_nonneg (r : list Q) (acc : Q) :
  (0 <= acc)%Q -> nonneg r -> (0 <= fold_left Qplus r acc)%Q.
Proof.
  intros Hacc Hr. revert acc Hacc.
  induction Hr as [| x r Hx Hr IH]; intros acc Hacc; simpl; [ assumption | ].
  apply IH. change 0%Q with (0 + 0)%Q. apply Qplus_le_compat; assumption.
Qed.

Lemma instantaneous_loudness_nonneg (m : matrix) :
  Forall nonneg m -> nonneg (np_div (np_sum_axis1 m) 4).
Proof.
  intros Hm. unfold np_div, np_sum_axis1. rewrite map_map.
  apply Forall_forall. intros x Hx.
  apply in_map_iff in Hx as (r & <- & Hr).
  apply Qle_shift_div_l; [ reflexivity | ].
  rewrite Qmult_0_l. apply sum_nonneg; [ apply Qle_refl | ].
  eapply Forall_forall in Hm; eauto.
Qed.

Lemma retained_nonneg (full kept : matrix) :
  retained full kept -> Forall nonneg full -> Forall nonneg kept.
Proof.
  intros (_ & first & rest & -> & Hzero & _ & ->) Hfull. constructor.
  - eapply Forall_impl; [ | exact Hzero ].
    intros x ->. apply Qle_refl.
  - apply Forall_forall. intros r Hr.
    apply firstn_In, skipn_In in Hr.
    eapply Forall_forall in Hfull; eauto.
Qed.

Variable U : Env.
Hypothesis stages : Mgsutils.nonneg_stages U.

Lemma binaural_step_nonneg (stsl_left stsl_right : matrix)
      (st st' : vec * vec) (i : nat) :
  binaural_step U stsl_left stsl_right st i = Ok st' ->
  nonneg (fst st) /\ nonneg (snd st) ->
  nonneg (fst st') /\ nonneg (snd st').
Proof.
  destruct st as [a b]. unfold binaural_step. intros H (Ha & Hb).
  apply res_bind_ok in H as (row_l & _ & H).
  apply res_bind_ok in H as (row_r & _ & H).
  apply res_bind_ok in H as ([[t l] r] & Hd & H).
  apply res_bind_ok in H as (a' & Hsa & H).
  apply res_bind_ok in H as (b' & Hsb & [= <-]).
  apply (Mgsutils.binaural_nonneg stages) in Hd as (_ & Hl & Hr).
  simpl in *. split; eapply set_item_nonneg; eauto.
Qed.

Lemma binaural_loop_nonneg (stsl_left stsl_right : matrix)
      (idx : list nat) (st st' : vec * vec) :
  for_range (binaural_step U stsl_left stsl_right) idx st = Ok st' ->
  nonneg (fst st) /\ nonneg (snd st) ->
  nonneg (fst st') /\ nonneg (snd st').
Proof.
  revert st. induction idx as [| i idx IH]; intros st; simpl.
  - intros [= <-]. auto.
  - intros H Hst. apply res_bind_ok in H as (st1 & Hstep & H).
    eapply IH; [ exact H | ]. eapply binaural_step_nonneg; eauto.
Qed.

Lemma short_term_nonneg (isl_left isl_right : matrix) (stl_left stl_right : vec) :
  result (short_term U isl_left isl_right) = Ok (stl_left, stl_right) ->
  nonneg stl_left /\ nonneg stl_right.
Proof.
  unfold short_term. intros H. steps_ok H.
  apply binaural_loop_nonneg in H; [ exact H | ].
  split; apply np_zeros_nonneg.
Qed.

End NonNegative.

(** C7.  With stages whose outputs are non-negative, as the specification
    gives them, every run that returns has a non-negative loudness and no
    negative value in its short-term, long-term and two instantaneous
    loudness sequences. *)
Theorem outputs_are_nonneg
        (U : Env) (filename_sound : string) (db_max : Q) (field_type : string)
        (s : option ndarray) (fs : option Z) (out : outputs) :
  Mgsutils.nonneg_stages U ->
  result (tv2018 U filename_sound db_max field_type s fs) = Ok out ->
  nonneg_outputs out.
Proof.
  intros stages H.
  apply tv2018_ok in H
    as (padded & fs' & isl_l & isl_r & stl_l & stl_r
        & _ & Hisl & Hst & Hlt & Hadd & Hil & Hir).
  apply retained_frames in Hisl
    as (cochlea & left & right & _ & Hfb & Hkl & Hkr).
  apply (Mgsutils.filterbank_nonneg stages) in Hfb as (Hleft & Hright).
  apply (short_term_nonneg stages) in Hst as (Hsl & Hsr).
  unfold long_term in Hlt. steps_ok Hlt. injection Hlt as Hloud Hseq.
  simpl in Hstep0, Hstep1, Hstep2, Hstep3.
  apply (Mgsutils.long_term_nonneg stages) in Hstep0, Hstep1.
  assert (Hltl : Forall (Qle 0) (long_term_loudness out)).
  { rewrite <- Hseq. eapply np_add_nonneg; eauto. }
  unfold nonneg_outputs. repeat split.
  - apply np_max_spec in Hstep3 as (Hin & _). rewrite <- Hloud.
    rewrite <- Hseq in Hltl. eapply Forall_forall in Hltl; eauto.
  - eapply np_add_nonneg; eauto.
  - exact Hltl.
  - rewrite Hil. apply instantaneous_loudness_nonneg.
    eapply retained_nonneg; eauto.
  - rewrite Hir. apply instantaneous_loudness_nonneg.
    eapply retained_nonneg; eauto.
Qed.

(** ** Sone to phon *)

Section SoneToPhon.

Import Mgsutils.
Local Open Scope Q_scope.

Lemma Qle_bool_false (x y : Q) : Qle_bool x y = false -> y < x.
Proof.
  intros H. apply Qnot_le_lt. intros Hle.
  apply Qle_bool_iff in Hle. congruence.
Qed.

Lemma pos_nonneg (a b x : Q) : a < b -> a <= x -> 0 <= pos a b x.
Proof.
  intros Hab Hx. unfold pos. apply Qle_shift_div_l; lra.
Qed.

Lemma pos_le_1 (a b x : Q) : a < b -> x <= b -> pos a b x <= 1.
Proof.
  intros Hab Hx. unfold pos. apply Qle_shift_div_r; lra.
Qed.

Lemma pos_mono (a b x y : Q) : a < b -> x <= y -> pos a b x <= pos a b y.
Proof.
  intros Hab Hxy. unfold pos, Qdiv. apply Qmult_le_compat_r; [ lra | ].
  apply Qinv_le_0_compat. lra.
Qed.

Lemma pos_end (a b x : Q) : a < b -> x == b -> pos a b x == 1.
Proof.
  intros Hab Hx. unfold pos. rewrite Hx. field. lra.
Qed.

Lemma increasing_In (p q : Q * Q) (rest : list (Q * Q)) :
  increasing p rest -> In q rest -> fst p < fst q.
Proof.
  revert p. induction rest as [| r rest IH]; intros p; simpl; [ tauto | ].
  intros (Hpr & Hinc) [-> | Hin]; [ exact Hpr | ].
  eapply Qlt_trans; [ exact Hpr | apply IH; assumption ].
Qed.

(** At a breakpoint the curve takes the breakpoint's value. *)
Lemma interpolate_at_breakpoint (x : Q) (p q : Q * Q) (rest : list (Q * Q)) :
  increasing p rest -> In q rest -> x == fst q ->
  interpolate x p rest == snd q.
Proof.
  revert p. induction rest as [| r rest IH]; intros p; simpl; [ tauto | ].
  intros (Hpr & Hinc) [-> | Hin] Hx.
  - assert (E : Qle_bool x (fst q) = true) by (apply Qle_bool_iff; lra).
    rewrite E.
    rewrite (pos_end Hpr Hx). ring.
  - pose proof (increasing_In _ _ _ Hinc Hin) as Hrq.
    destruct (Qle_bool x (fst r)) eqn:E.
    + apply Qle_bool_iff in E. lra.
    + apply IH; assumption.
Qed.

Lemma interpolate_lower (x : Q) (p : Q * Q) (rest : list (Q * Q)) :
  increasing p rest -> rising p rest -> fst p <= x ->
  snd p <= interpolate x p rest.
Proof.
  revert p. induction rest as [| q rest IH]; intros p; simpl.
  - intros _ _ _. apply Qle_refl.
  - intros (Hpq & Hinc) (Hsnd & Hris) Hx.
    destruct (Qle_bool x (fst q)) eqn:E.
    + pose proof (pos_nonneg Hpq Hx) as Ht.
      generalize dependent (pos (fst p) (fst q) x). intros t Ht. nra.
    + apply Qle_bool_false in E.
      eapply Qle_trans; [ exact Hsnd | ]. apply IH; auto. lra.
Qed.

Lemma interpolate_mono (x y : Q) (p : Q * Q) (rest : list (Q * Q)) :
  increasing p rest -> rising p rest -> fst p <= x -> x <= y ->
  interpolate x p rest <= interpolate y p rest.
Proof.
  revert p. induction rest as [| q rest IH]; intros p; simpl.
  - intros _ _ _ _. apply Qle_refl.
  - intros (Hpq & Hinc) (Hsnd & Hris) Hx Hxy.
    destruct (Qle_bool x (fst q)) eqn:Ex; destruct (Qle_bool y (fst q)) eqn:Ey.
    + pose proof (@pos_mono (fst p) (fst q) x y Hpq Hxy) as Ht.
      generalize dependent (pos (fst p) (fst q) x). intros t.
      generalize dependent (pos (fst p) (fst q) y). intros t' Ht. nra.
    + apply Qle_bool_iff in Ex. apply Qle_bool_false in Ey.
      pose proof (@pos_le_1 (fst p) (fst q) x Hpq Ex) as Ht.
      apply Qle_trans with (snd q).
      * generalize dependent (pos (fst p) (fst q) x). intros t Ht. nra.
      * apply interpolate_lower; auto. lra.
    + apply Qle_bool_false in Ex. apply Qle_bool_iff in Ey. lra.
    + apply Qle_bool_false in Ex. apply IH; auto. lra.
Qed.

(** C8.  The converter as the specification describes it, a curve through
    the breakpoints of a table that contains the anchor of the 1 kHz
    reference tone, maps 1 sone to 40 phon and is monotonic. *)
Theorem one_sone_is_40_phon (table : list (Q * Q)) :
  curve table -> anchored table ->
  Mgsutils.sone_to_phon_tv2018 table 1 == 40 /\
  forall x y, x <= y ->
    Mgsutils.sone_to_phon_tv2018 table x
    <= Mgsutils.sone_to_phon_tv2018 table y.
Proof.
  destruct table as [| p rest]; intros Hc (q & Hin & Hq1 & Hq40).
  - destruct Hin.
  - destruct Hc as (Hinc & Hris). unfold Mgsutils.sone_to_phon_tv2018. split.
    + destruct Hin as [-> | Hin].
      * assert (E : Qle_bool 1 (fst q) = true) by (apply Qle_bool_iff; lra).
        rewrite E. exact Hq40.
      * pose proof (increasing_In _ _ _ Hinc Hin) as Hpq.
        destruct (Qle_bool 1 (fst p)) eqn:E.
        -- apply Qle_bool_iff in E. lra.
        -- rewrite <- Hq40. apply interpolate_at_breakpoint; auto.
           symmetry. exact Hq1.
    + intros x y Hxy.
      destruct (Qle_bool x (fst p)) eqn:Ex; destruct (Qle_bool y (fst p)) eqn:Ey.
      * apply Qle_refl.
      * apply Qle_bool_false in Ey. apply interpolate_lower; auto. lra.
      * apply Qle_bool_false in Ex. apply Qle_bool_iff in Ey. lra.
      * apply Qle_bool_false in Ex. apply interpolate_mono; auto. lra.
Qed.

End SoneToPhon.

(** ** The executable instance at work *)

Section Instance.

Lemma qmax_0_nonneg (x : Q) : (0 <= qmax 0 x)%Q.
Proof.
  unfold qmax. destruct (Qle_bool 0 x) eqn:E.
  - apply Qle_bool_iff, E.
  - apply Qle_refl.
Qed.

Lemma demo_stages_nonneg : Mgsutils.nonneg_stages Demo.env.
Proof.
  constructor; simpl.
  - unfold Demo.filterbank. intros s fs db_max left right H.
    destruct (fs =? 32000); [ | discriminate ].
    destruct s as [d | c rows]; [ discriminate | ].
    injection H as <- <-.
    split; apply Forall_forall; intros r Hr;
      apply in_map_iff in Hr as (frame & <- & _);
      repeat constructor; apply qmax_0_nonneg.
  - unfold Demo.binaural. intros row_left row_right b l r H.
    destruct (Qle_bool 0 (Demo.total row_left)) eqn:El; [ | discriminate ].
    destruct (Qle_bool 0 (Demo.total row_right)) eqn:Er; [ | discriminate ].
    injection H as <- <- <-.
    apply Qle_bool_iff in El, Er. repeat split; try assumption.
    change 0%Q with (0 + 0)%Q.
    apply Qplus_le_compat; assumption.
  - unfold Demo.long_term_integrator. intros stl ltl H.
    destruct (forallb (Qle_bool 0) (Demo.smooth_vec 0 stl)) eqn:E;
      [ | discriminate ].
    injection H as <-. apply Forall_forall. intros x Hx.
    eapply forallb_forall in E; [ | exact Hx ]. apply Qle_bool_iff, E.
Qed.

Lemma demo_resample_ndim (d : vec) (num : Z) (a : ndarray) :
  Demo.resample (Arr1 d) num = Ok a -> ndim a = 1%nat.
Proof.
  unfold Demo.resample. destruct (num <=? 0); [ discriminate | ].
  intros [= <-]. reflexivity.
Qed.

End Instance.

(** The run of the instance on a signal at 16 kHz: it warns, announces its
    stages and returns.  The filterbank stage of the instance raises
    [ConfigurationError] at any rate other than 32 kHz; the rate [tv2018]
    hands it is 32000. *)
Lemma run_16000_returns :
  16000 <> 32000 /\
  result Demo.run_16000 <> Err ConfigurationError /\
  (exists out, result Demo.run_16000 = Ok out) /\
  hd_error (printed Demo.run_16000) = Some warning_resampled /\
  In info_cochlea (printed Demo.run_16000) /\
  Demo.filterbank Demo.padded_tone 16000 100 = Err ConfigurationError.
Proof.
  split; [ lia | ].
  split; [ vm_compute; discriminate | ].
  split; [ vm_compute; eexists; reflexivity | ].
  split; [ vm_compute; reflexivity | ].
  split; [ vm_compute; auto | reflexivity ].
Qed.

(** The run on 48 samples at 16 kHz is the run on the 96 held samples at
    32 kHz, after the warning. *)
Lemma other_rate_is_resampled_witness :
  result Demo.run_16000
  = result (tv2018 Demo.env "tone.wav" 100 "free"
                   (Some Demo.held_tone) (Some 32000)) /\
  printed Demo.run_16000
  = warning_resampled
      :: printed (tv2018 Demo.env "tone.wav" 100 "free"
                         (Some Demo.held_tone) (Some 32000)).
Proof.
  refine (proj2 (other_rate_is_resampled Demo.env "tone.wav" 100 "free"
                   (Demo.tone 48) (fs := 16000) _) Demo.held_tone _ _).
  - lia.
  - lia.
  - vm_compute. reflexivity.
Defined.



(** Two runs on the tone under two names return the same outputs. *)
Lemma filename_sound_is_not_read_witness :
  result (tv2018 Demo.env "tone.wav" 100 "free"
                 (Some (Demo.tone 96)) (Some 32000)) = Ok Demo.out_32000 /\
  exists out2,
    result (tv2018 Demo.env "other.wav" 100 "free"
                   (Some (Demo.tone 96)) (Some 32000)) = Ok out2 /\
    Demo.out_32000 = out2.
Proof.
  split; [ vm_compute; reflexivity | ].
  eexists. split; [ vm_compute; reflexivity | ].
  apply (proj2 (filename_sound_is_not_read Demo.env "tone.wav" "other.wav"
                  100 "free" (Demo.tone 96) 32000)).
  - vm_compute. reflexivity.
  - vm_compute. reflexivity.
Defined.

(** The matrices retained for the padded tone: 131 frames less 64. *)
Lemma retained_frames_witness :
  exists cochlea left right,
    sound_field_to_cochlea Demo.env Demo.padded_tone "free" = Ok cochlea /\
    filtered_signal_to_monaural_instantaneous_specific_loudness
      Demo.env cochlea 32000 100 = Ok (left, right) /\
    retained left (fst Demo.isl_32000) /\ retained right (snd Demo.isl_32000).
Proof.
  apply (retained_frames Demo.env Demo.padded_tone 32000 100 "free").
  vm_compute. reflexivity.
Defined.

(** The outputs of the run on the tone at 32 kHz. *)
Lemma loudness_is_max_of_long_term_witness :
  exists stl_left stl_right ltl_left ltl_right,
    np_add stl_left stl_right = Ok (short_term_loudness Demo.out_32000) /\
    short_term_loudness_to_long_term_loudness Demo.env stl_left = Ok ltl_left /\
    short_term_loudness_to_long_term_loudness Demo.env stl_right = Ok ltl_right /\
    np_add ltl_left ltl_right = Ok (long_term_loudness Demo.out_32000) /\
    (length ltl_left = length ltl_right ->
     long_term_loudness Demo.out_32000 = map2 Qplus ltl_left ltl_right) /\
    In (loudness Demo.out_32000) (long_term_loudness Demo.out_32000) /\
    Forall (fun x => x <= loudness Demo.out_32000)%Q
           (long_term_loudness Demo.out_32000).
Proof.
  apply (loudness_is_max_of_long_term Demo.env "tone.wav" 100 "free"
           (Some (Demo.tone 96)) (Some 32000)).
  vm_compute. reflexivity.
Defined.

(** The cochlea stage of the instance receives [Demo.padded_tone]. *)
Lemma cochlea_receives_padded_signal_witness :
  (exists c rows,
      result ('(s, fs) <- load_input Demo.env "tone.wav"
                            (Some (Demo.tone 96)) (Some 32000) ;;
              to_operating_rate Demo.env s fs) = Ok (Arr2 c rows, 32000) /\
      Demo.padded_tone = Arr2 c (guard c ++ rows ++ guard c) /\
      Forall (Forall (fun x => x = 0%Q)) (guard c) /\
      Z.of_nat (length (guard c)) = 32000 / 1000 * 64) /\
  32000 = 32000 /\
  forall stage,
    stage Demo.padded_tone "free"
    = sound_field_to_cochlea Demo.env Demo.padded_tone "free" ->
    tv2018 (with_cochlea Demo.env stage) "tone.wav" 100 "free"
           (Some (Demo.tone 96)) (Some 32000)
    = tv2018 Demo.env "tone.wav" 100 "free" (Some (Demo.tone 96)) (Some 32000).
Proof.
  apply (cochlea_receives_padded_signal Demo.env "tone.wav" 100 "free"
           (Some (Demo.tone 96)) (Some 32000)).
  vm_compute. reflexivity.
Defined.

(** The short-term totals of the run on the tone at 32 kHz. *)
Lemma short_term_scalar_is_dead_witness :
  exists stsl_left stsl_right stl_left stl_right,
    combiner_totals Demo.env stsl_left stsl_right stl_left stl_right /\
    np_add stl_left stl_right = Ok (short_term_loudness Demo.out_32000) /\
    result (long_term Demo.env stl_left stl_right)
    = Ok (loudness Demo.out_32000, long_term_loudness Demo.out_32000).
Proof.
  apply (proj2 (short_term_scalar_is_dead Demo.env (fun _ _ v => v)
                  "tone.wav" 100 "free" (Some (Demo.tone 96)) (Some 32000))).
  vm_compute. reflexivity.
Defined.

(** The instance meets the contracts, and its run returns. *)
Lemma outputs_are_nonneg_witness : nonneg_outputs Demo.out_32000.
Proof.
  apply (@outputs_are_nonneg Demo.env "tone.wav" 100 "free"
           (Some (Demo.tone 96)) (Some 32000)).
  - exact demo_stages_nonneg.
  - vm_compute. reflexivity.
Defined.

(** The table of the instance is a monotonic curve through (1, 40). *)
Lemma one_sone_is_40_phon_witness :
  (Mgsutils.sone_to_phon_tv2018 Demo.table 1 == 40)%Q /\
  forall x y, (x <= y)%Q ->
    (Mgsutils.sone_to_phon_tv2018 Demo.table x
     <= Mgsutils.sone_to_phon_tv2018 Demo.table y)%Q.
Proof.
  apply (@one_sone_is_40_phon Demo.table).
  - simpl. repeat split; discriminate.
  - exists (1, 40)%Q. simpl. repeat split; auto 10.
Defined.

(** The resampler of the instance keeps one dimension at one. *)
Lemma one_dimensional_signal_is_refused_witness :
  np_pad (Arr1 (Demo.samples 96)) pad_width = Err ValueError /\
  (forall rows, exists padded, np_pad (Arr2 1 rows) pad_width = Ok padded) /\
  tv2018 Demo.env "tone.wav" 100 "free"
         (Some (Arr1 (Demo.samples 96))) (Some 32000)
  = ([], Err ValueError) /\
  forall fs,
    let run :=
      tv2018 Demo.env "tone.wav" 100 "free"
             (Some (Arr1 (Demo.samples 96))) (Some fs) in
    (exists e, result run = Err e) /\
    printed run = (if fs =? 32000 then [] else [warning_resampled]).
Proof.
  apply (@one_dimensional_signal_is_refused Demo.env "tone.wav" 100 "free"
           (Demo.samples 96)).
  exact demo_resample_ndim.
Defined.

(** * Further properties of [tv2018] *)

Lemma result_bind_ok {A B} (m : M A) (k : A -> M B) (a : A) :
  result m = Ok a -> result (bind m k) = result (k a).
Proof. intros H. rewrite result_bind, H. reflexivity. Qed.

Lemma result_bind_err {A B} (m : M A) (k : A -> M B) (e : exn) :
  result m = Err e -> result (bind m k) = Err e.
Proof. intros H. rewrite result_bind, H. reflexivity. Qed.

Lemma printed_bind_ok {A B} (m : M A) (k : A -> M B) (a : A) :
  result m = Ok a -> printed (bind m k) = printed m ++ printed (k a).
Proof.
  destruct m as [out [a' | e]]; simpl; [ | discriminate ].
  intros [= ->]. destruct (k a). reflexivity.
Qed.

Lemma printed_bind_err {A B} (m : M A) (k : A -> M B) (e : exn) :
  result m = Err e -> printed (bind m k) = printed m.
Proof.
  destruct m as [out [a' | e']]; simpl; [ discriminate | reflexivity ].
Qed.

Lemma run_eq {A} (m : M A) : m = (printed m, result m).
Proof. destruct m. reflexivity. Qed.

Lemma for_range_ext {S} (f g : S -> nat -> res S) (idx : list nat) (st : S) :
  (forall st i, f st i = g st i) -> for_range f idx st = for_range g idx st.
Proof.
  intros H. revert st. induction idx as [| i idx IH]; intros st; simpl.
  - reflexivity.
  - rewrite H. destruct (g st i); simpl; auto.
Qed.

(** ** Missing input (lines 54-56) *)

Lemma tv2018_loads (U : Env) (filename_sound : string) (db_max : Q)
      (field_type : string) :
  tv2018 U filename_sound db_max field_type None None
  = (print info_loading ;;
     '(s, fs) <- lift (load U filename_sound) ;;
     tv2018 U filename_sound db_max field_type (Some s) (Some fs)).
Proof.
  unfold tv2018, prepare, load_input.
  rewrite !bind_assoc. apply bind_ext; intros _.
  rewrite ?bind_assoc. apply bind_ext; intros [s fs].
  rewrite bind_ret. reflexivity.
Qed.

(** X1.  Unless both the samples and the rate are given, both are taken
    from the sound file: the run announces the loading, reads the file and
    goes on as if called with what it read.  Samples given without a rate,
    or a rate given without samples, are ignored. *)
Theorem missing_input_is_loaded
        (U : Env) (filename_sound : string) (db_max : Q) (field_type : string)
        (s : option ndarray) (fs : option Z) :
  s = None \/ fs = None ->
  let run := tv2018 U filename_sound db_max field_type in
  run s fs
  = (print info_loading ;;
     '(s', fs') <- lift (load U filename_sound) ;;
     run (Some s') (Some fs')) /\
  run s fs = run None None.
Proof.
  intros H run. subst run.
  assert (E : tv2018 U filename_sound db_max field_type s fs
              = tv2018 U filename_sound db_max field_type None None).
  { destruct H as [-> | ->]; [ reflexivity | ]. destruct s; reflexivity. }
  split; [ rewrite E; apply tv2018_loads | exact E ].
Qed.

(** ** A rate of zero (lines 58-62) *)

(** X2.  At a rate of 0 the run prints the resampling warning and raises
    [ZeroDivisionError] from the computation of the new length: the signal
    is neither resampled nor handed to any stage. *)
Theorem zero_rate_raises
        (U : Env) (filename_sound : string) (db_max : Q) (field_type : string)
        (s : ndarray) :
  tv2018 U filename_sound db_max field_type (Some s) (Some 0)
  = ([warning_resampled], Err ZeroDivisionError).
Proof.
  rewrite tv2018_at_other_rate by discriminate.
  rewrite bind_print. reflexivity.
Qed.

(** ** The rate the filterbank stage sees (lines 58-76) *)

Lemma prepare_rate (U : Env) (filename_sound : string)
      (s : option ndarray) (fs : option Z) (padded : ndarray) (fs' : Z) :
  result (prepare U filename_sound s fs) = Ok (padded, fs') -> fs' = 32000.
Proof.
  intros H. apply prepare_ok in H as (signal & _ & _ & E). exact E.
Qed.

Lemma core_filterbank_at_32000
      (U : Env) (stage : ndarray -> Z -> Q -> res (matrix * matrix))
      (filename_sound : string) (db_max : Q) (field_type : string)
      (s : ndarray) :
  (forall c, stage c 32000 db_max
             = filtered_signal_to_monaural_instantaneous_specific_loudness
                 U c 32000 db_max) ->
  core (with_filterbank U stage) filename_sound db_max field_type s 32000
  = core U filename_sound db_max field_type s 32000.
Proof.
  intros H. unfold core, instantaneous_specific_loudness.
  cbn [with_filterbank sound_field_to_cochlea
       filtered_signal_to_monaural_instantaneous_specific_loudness].
  rewrite ?bind_assoc. apply bind_ext; intros _.
  rewrite ?bind_assoc. apply bind_ext; intros cochlea.
  rewrite ?bind_assoc. apply bind_ext; intros _.
  rewrite H. reflexivity.
Qed.

(** X3.  Whatever rate the caller gives or the file has, the filterbank
    stage is called at 32000 only: a run is the same with any other stage
    that agrees with it at that rate and the given calibration level. *)
Theorem filterbank_runs_at_32000
        (U : Env) (stage : ndarray -> Z -> Q -> res (matrix * matrix))
        (filename_sound : string) (db_max : Q) (field_type : string)
        (s : option ndarray) (fs : option Z) :
  (forall c, stage c 32000 db_max
             = filtered_signal_to_monaural_instantaneous_specific_loudness
                 U c 32000 db_max) ->
  tv2018 (with_filterbank U stage) filename_sound db_max field_type s fs
  = tv2018 U filename_sound db_max field_type s fs.
Proof.
  intros H. unfold tv2018.
  change (prepare (with_filterbank U stage) filename_sound s fs)
    with (prepare U filename_sound s fs).
  destruct (prepare U filename_sound s fs) as [out [[padded fs'] | e]] eqn:E;
    [ | reflexivity ].
  assert (fs' = 32000) as ->.
  { eapply prepare_rate. rewrite E. reflexivity. }
  unfold bind. rewrite core_filterbank_at_32000 by assumption. reflexivity.
Qed.

(** ** Too few frames (lines 74-88) *)

Lemma start_with_zero_short (m : matrix) :
  (length m <= 64)%nat -> start_with_zero (shorten m) = Err IndexError.
Proof.
  intros H. pose proof (shorten_length m) as Hlen.
  destruct (shorten m) as [| r t]; [ reflexivity | simpl in Hlen; lia ].
Qed.

(** X4.  When the filterbank stage returns 64 frames or fewer for a
    channel, nothing is left after the first and last 32 are dropped, and
    setting the first retained frame to zero raises [IndexError]: the run
    ends there, after two announcements, before any loudness is
    integrated. *)
Theorem too_few_frames_raise
        (U : Env) (filename_sound : string) (db_max : Q) (field_type : string)
        (s : option ndarray) (fs : option Z)
        (out : list line) (padded cochlea : ndarray) (fs' : Z)
        (left right : matrix) :
  prepare U filename_sound s fs = (out, Ok (padded, fs')) ->
  sound_field_to_cochlea U padded field_type = Ok cochlea ->
  filtered_signal_to_monaural_instantaneous_specific_loudness
    U cochlea fs' db_max = Ok (left, right) ->
  (length left <= 64 \/ length right <= 64)%nat ->
  tv2018 U filename_sound db_max field_type s fs
  = (out ++ [info_cochlea; info_filterbank], Err IndexError).
Proof.
  intros Hprep Hc Hfb Hshort. unfold tv2018. rewrite Hprep.
  assert (E : core U filename_sound db_max field_type padded fs'
              = ([info_cochlea; info_filterbank], Err IndexError)).
  { unfold core, instantaneous_specific_loudness.
    rewrite ?bind_assoc, bind_print.
    rewrite ?bind_assoc, Hc, bind_lift_ok.
    rewrite ?bind_assoc, bind_print.
    rewrite ?bind_assoc, Hfb, bind_lift_ok. cbv zeta.
    destruct (Nat.le_gt_cases (length left) 64) as [Hl | Hl].
    - rewrite (start_with_zero_short _ Hl). reflexivity.
    - destruct (proj2 (shorten_then_zero_defined left) Hl) as (kept & ->).
      destruct Hshort as [Hs | Hs]; [ lia | ].
      rewrite ?bind_assoc, bind_lift_ok.
      rewrite (start_with_zero_short _ Hs). reflexivity. }
  unfold bind. rewrite E. reflexivity.
Qed.

(** ** The instantaneous loudness sequences (lines 78-88, 129-134) *)

Lemma sum_of_zeros (r : list Q) :
  Forall (fun x => x = 0%Q) r -> fold_left Qplus r 0%Q = 0%Q.
Proof.
  induction 1 as [| x r Hx Hr IH]; simpl; [ reflexivity | ].
  subst x. exact IH.
Qed.

Lemma instantaneous_loudness_of_retained (full kept : matrix) :
  retained full kept ->
  Z.of_nat (length (np_div (np_sum_axis1 kept) 4))
  = Z.of_nat (length full) - 64 /\
  exists x rest,
    np_div (np_sum_axis1 kept) 4 = x :: rest /\ (x == 0)%Q /\
    rest = map (fun r => fold_left Qplus r 0 / 4)%Q
               (firstn (length full - 65) (skipn 33 full)).
Proof.
  intros (Hlen & first & rest & -> & Hzero & _ & Hrest).
  unfold np_div, np_sum_axis1. rewrite !length_map. split; [ lia | ].
  simpl. rewrite (sum_of_zeros Hzero).
  eexists. eexists. split; [ reflexivity | ]. split; [ reflexivity | ].
  rewrite map_map, Hrest. reflexivity.
Qed.

(** Lines 70-88 taken apart. *)
Lemma instantaneous_specific_loudness_ok
      (U : Env) (s : ndarray) (fs : Z) (db_max : Q) (field_type : string)
      (isl_left isl_right : matrix) :
  result (instantaneous_specific_loudness U s fs db_max field_type)
  = Ok (isl_left, isl_right) ->
  exists cochlea left right,
    sound_field_to_cochlea U s field_type = Ok cochlea /\
    filtered_signal_to_monaural_instantaneous_specific_loudness
      U cochlea fs db_max = Ok (left, right) /\
    retained left isl_left /\ retained right isl_right.
Proof.
  unfold instantaneous_specific_loudness. intros H.
  steps_ok H. injection H as <- <-.
  simpl in *. eauto 10 using shorten_then_zero.
Qed.

(** X5.  In a run that returns, each instantaneous loudness sequence has
    one value per frame of the filterbank stage less 64, its first value is
    0, and every later value is a quarter of the sum over the bands of the
    frame it stands for, frame 33 + k of the stage for value 1 + k. *)
Theorem instantaneous_loudness_shape
        (U : Env) (filename_sound : string) (db_max : Q) (field_type : string)
        (s : option ndarray) (fs : option Z) (out : outputs) :
  result (tv2018 U filename_sound db_max field_type s fs) = Ok out ->
  exists padded cochlea left right,
    result (prepare U filename_sound s fs) = Ok (padded, 32000) /\
    sound_field_to_cochlea U padded field_type = Ok cochlea /\
    filtered_signal_to_monaural_instantaneous_specific_loudness
      U cochlea 32000 db_max = Ok (left, right) /\
    let shape (full : matrix) (seq : vec) :=
      Z.of_nat (length seq) = Z.of_nat (length full) - 64 /\
      exists x rest,
        seq = x :: rest /\ (x == 0)%Q /\
        rest = map (fun r => fold_left Qplus r 0 / 4)%Q
                   (firstn (length full - 65) (skipn 33 full)) in
    shape left (instantaneous_loudness_left out) /\
    shape right (instantaneous_loudness_right out).
Proof.
  intros H.
  apply tv2018_ok in H
    as (padded & fs' & isl_l & isl_r & stl_l & stl_r
        & Hprep & Hisl & _ & _ & _ & Hil & Hir).
  pose proof (prepare_rate _ _ _ _ Hprep) as ->.
  apply instantaneous_specific_loudness_ok in Hisl
    as (cochlea & left & right & Hc & Hfb & Hkl & Hkr).
  exists padded, cochlea, left, right.
  split; [ assumption | ]. split; [ assumption | ]. split; [ assumption | ].
  cbv zeta. rewrite Hil, Hir.
  split; apply instantaneous_loudness_of_retained; assumption.
Qed.

(** ** The binaural total (lines 107-113, 127) *)

Lemma short_term_binaural_total_unused
      (U : Env) (other : list Q -> list Q -> Q -> Q)
      (isl_left isl_right : matrix) :
  short_term (with_binaural_total U other) isl_left isl_right
  = short_term U isl_left isl_right.
Proof.
  unfold short_term.
  cbn [with_binaural_total
       instantaneous_specific_loudness_to_short_term_specific_loudness].
  apply bind_ext; intros _.
  apply bind_ext; intros [stsl_left unused_left].
  apply bind_ext; intros [stsl_right unused_right]. cbv zeta.
  apply bind_ext; intros _. f_equal.
  apply for_range_ext. intros [stl_left stl_right] i.
  unfold binaural_step. cbn [with_binaural_total
    monaural_specific_loudness_to_binaural_loudness_025].
  destruct (get_row stsl_left i) as [row_left | e]; [ | reflexivity ].
  destruct (get_row stsl_right i) as [row_right | e]; [ | reflexivity ].
  cbn [res_bind].
  destruct (monaural_specific_loudness_to_binaural_loudness_025
              U row_left row_right) as [[[b l] r] | e]; reflexivity.
Qed.

(** X6.  The binaural total, the first value of the combiner's triple, is
    thrown away on line 108: with a combiner that returns anything else in
    its place the run prints and returns the same. *)
Theorem binaural_total_is_discarded
        (U : Env) (other : list Q -> list Q -> Q -> Q)
        (filename_sound : string) (db_max : Q) (field_type : string)
        (s : option ndarray) (fs : option Z) :
  tv2018 (with_binaural_total U other) filename_sound db_max field_type s fs
  = tv2018 U filename_sound db_max field_type s fs.
Proof.
  unfold tv2018. apply bind_ext. intros [padded fs'].
  unfold core. apply bind_ext. intros [isl_left isl_right].
  rewrite short_term_binaural_total_unused. reflexivity.
Qed.

(** ** The short-term loudness, frame by frame (lines 103-113, 127) *)

Lemma nth_error_map2 {A B C} (f : A -> B -> C) (a : list A) (b : list B)
      (i : nat) (x : A) (y : B) :
  nth_error a i = Some x -> nth_error b i = Some y ->
  nth_error (map2 f a b) i = Some (f x y).
Proof.
  revert a b. induction i as [| i IH]; intros [| x' a] [| y' b]; simpl;
    try discriminate.
  - intros [= ->] [= ->]. reflexivity.
  - apply IH.
Qed.

Lemma length_map2 {A B C} (f : A -> B -> C) (a : list A) (b : list B) :
  length a = length b -> length (map2 f a b) = length a.
Proof.
  revert b. induction a as [| x a IH]; intros [| y b]; simpl; try discriminate.
  - reflexivity.
  - intros [= H]. f_equal. apply IH, H.
Qed.

(** X7.  A run returns only if the right short-term matrix has at least as
    many frames as the left one.  When both have as many, the short-term
    loudness has one value per frame, and the value of frame [i] is the sum
    of the left and the right total the combiner returned for row [i] of
    the two matrices. *)
Theorem short_term_loudness_per_frame
        (U : Env) (filename_sound : string) (db_max : Q) (field_type : string)
        (s : option ndarray) (fs : option Z) (out : outputs) :
  result (tv2018 U filename_sound db_max field_type s fs) = Ok out ->
  exists padded isl_left isl_right stsl_left unused_left stsl_right unused_right,
    result (prepare U filename_sound s fs) = Ok (padded, 32000) /\
    result (instantaneous_specific_loudness U padded 32000 db_max field_type)
    = Ok (isl_left, isl_right) /\
    instantaneous_specific_loudness_to_short_term_specific_loudness U isl_left
    = Ok (stsl_left, unused_left) /\
    instantaneous_specific_loudness_to_short_term_specific_loudness U isl_right
    = Ok (stsl_right, unused_right) /\
    (length stsl_left <= length stsl_right)%nat /\
    (length stsl_left = length stsl_right ->
     length (short_term_loudness out) = length stsl_left /\
     forall i, (i < length stsl_left)%nat ->
       exists row_left row_right b l r,
         nth_error stsl_left i = Some row_left /\
         nth_error stsl_right i = Some row_right /\
         monaural_specific_loudness_to_binaural_loudness_025
           U row_left row_right = Ok (b, l, r) /\
         nth_error (short_term_loudness out) i = Some (l + r)%Q).
Proof.
  intros H.
  apply tv2018_ok in H
    as (padded & fs' & isl_l & isl_r & stl_l & stl_r
        & Hprep & Hisl & Hst & _ & Hadd & _).
  pose proof (prepare_rate _ _ _ _ Hprep) as ->.
  apply short_term_ok in Hst
    as (stsl_l & ul & stsl_r & ur & Hcl & Hcr & Hll & Hlr & Hrows & _).
  exists padded, isl_l, isl_r, stsl_l, ul, stsl_r, ur.
  repeat (split; [ assumption | ]). split.
  - destruct (Nat.le_gt_cases (length stsl_l) (length stsl_r)) as [Hle | Hgt];
      [ exact Hle | ].
    destruct (Hrows (length stsl_r) Hgt) as (rl & rr & b & l & r & _ & Hr & _).
    assert (Hsome : nth_error stsl_r (length stsl_r) <> None) by congruence.
    apply nth_error_Some in Hsome. lia.
  - intros Hlen. unfold np_add in Hadd.
    assert (E : (length stl_l =? length stl_r)%nat = true)
      by (apply Nat.eqb_eq; congruence).
    rewrite E in Hadd. injection Hadd as <-. split.
    + rewrite length_map2; congruence.
    + intros i Hi.
      destruct (Hrows i Hi) as (rl & rr & b & l & r & H1 & H2 & H3 & H4 & H5).
      exists rl, rr, b, l, r. repeat (split; [ assumption | ]).
      apply nth_error_map2; assumption.
Qed.

(** ** The summary (lines 136-155) *)

Ltac report_step H :=
  match type of H with
  | context [bind (lift ?r) _] =>
      let E := fresh "E" in
      destruct r eqn:E;
      [ rewrite ?bind_lift_ok, ?bind_print in H |- *
      | rewrite ?bind_lift_err in H; discriminate H ]
  end.

(** A summary that was printed in full showed six maxima. *)
Lemma report_ok (U : Env) (filename_sound : string) (db_max : Q)
      (field_type : string) (ltl stl left right : vec) (u : unit) :
  result (report U filename_sound db_max field_type ltl stl left right) = Ok u ->
  exists long_sone long_phon short_sone short_phon left_sone right_sone p q,
    np_max ltl = Ok long_sone /\
    sone_to_phon_tv2018 U ltl = Ok p /\ np_max p = Ok long_phon /\
    np_max stl = Ok short_sone /\
    sone_to_phon_tv2018 U stl = Ok q /\ np_max q = Ok short_phon /\
    np_max left = Ok left_sone /\ np_max right = Ok right_sone /\
    printed (report U filename_sound db_max field_type ltl stl left right)
    = summary_lines filename_sound db_max field_type
                    long_sone long_phon short_sone short_phon
                    left_sone right_sone.
Proof.
  unfold report. cbv zeta. intros H.
  rewrite ?bind_print in H |- *. unfold result, printed in H |- *.
  cbn [fst snd] in H |- *.
  do 8 (report_step H; unfold result, printed in H |- *; cbn [fst snd] in H |- *).
  do 8 eexists.
  repeat (split; [ first [ reflexivity | eassumption ] | ]). reflexivity.
Qed.

Ltac stage_step H :=
  match type of H with
  | context [bind (lift ?r) _] =>
      let E := fresh "E" in
      destruct r eqn:E;
      [ rewrite ?bind_lift_ok in H |- *;
        repeat match goal with
               | x : (_ * _)%type |- _ => destruct x
               end;
        cbv zeta in H |- *;
        rewrite ?bind_print in H |- *
      | rewrite ?bind_lift_err in H; discriminate H ]
  end.

Ltac stage_steps H :=
  cbv zeta in H |- *; rewrite ?bind_print in H |- *;
  unfold result, printed in H |- *; cbn [fst snd] in H |- *;
  repeat (stage_step H; unfold result, printed in H |- *;
          cbn [fst snd] in H |- *).

(** What each part of a run has printed when it returns. *)
Lemma instantaneous_specific_loudness_printed
      (U : Env) (s : ndarray) (fs : Z) (db_max : Q) (field_type : string)
      (p : matrix * matrix) :
  result (instantaneous_specific_loudness U s fs db_max field_type) = Ok p ->
  printed (instantaneous_specific_loudness U s fs db_max field_type)
  = [info_cochlea; info_filterbank].
Proof.
  unfold instantaneous_specific_loudness. intros H. stage_steps H. reflexivity.
Qed.

Lemma short_term_printed (U : Env) (isl_left isl_right : matrix) (p : vec * vec) :
  result (short_term U isl_left isl_right) = Ok p ->
  printed (short_term U isl_left isl_right)
  = [[Lit "[Info] Instantaneous specific loudness to short term specific loudness"];
     [Lit "[Info] Monaural specific loudness to binaural loudness"]].
Proof.
  unfold short_term. intros H. stage_steps H. reflexivity.
Qed.

Lemma long_term_printed (U : Env) (stl_left stl_right : vec) (p : Q * vec) :
  result (long_term U stl_left stl_right) = Ok p ->
  printed (long_term U stl_left stl_right)
  = [[Lit "[Info] Short term loudness to long term loudness"]].
Proof.
  unfold long_term. intros H. stage_steps H. reflexivity.
Qed.

Lemma long_term_max (U : Env) (stl_left stl_right : vec) (x : Q) (ltl : vec) :
  result (long_term U stl_left stl_right) = Ok (x, ltl) -> np_max ltl = Ok x.
Proof.
  unfold long_term. intros H. steps_ok H. injection H as <- <-. exact Hstep3.
Qed.

(** A run that returned, with its summary and its console output. *)
Lemma tv2018_ok_printed (U : Env) (filename_sound : string) (db_max : Q)
      (field_type : string) (s : option ndarray) (fs : option Z) (out : outputs) :
  result (tv2018 U filename_sound db_max field_type s fs) = Ok out ->
  np_max (long_term_loudness out) = Ok (loudness out) /\
  result (report U filename_sound db_max field_type
                 (long_term_loudness out) (short_term_loudness out)
                 (instantaneous_loudness_left out)
                 (instantaneous_loudness_right out)) = Ok tt /\
  printed (tv2018 U filename_sound db_max field_type s fs)
  = printed (prepare U filename_sound s fs) ++ stage_lines
      ++ printed (report U filename_sound db_max field_type
                         (long_term_loudness out) (short_term_loudness out)
                         (instantaneous_loudness_left out)
                         (instantaneous_loudness_right out)).
Proof.
  unfold tv2018, core. intros H.
  apply bind_ok in H as ([padded fs'] & Hprep & H).
  rewrite (printed_bind_ok _ _ Hprep).
  apply bind_ok in H as ([isl_l isl_r] & Hisl & H).
  rewrite (printed_bind_ok _ _ Hisl),
    (instantaneous_specific_loudness_printed _ _ _ _ _ Hisl).
  apply bind_ok in H as ([stl_l stl_r] & Hst & H).
  rewrite (printed_bind_ok _ _ Hst), (short_term_printed _ _ _ Hst).
  apply bind_ok in H as ([x ltl] & Hlt & H).
  rewrite (printed_bind_ok _ _ Hlt), (long_term_printed _ _ _ Hlt).
  apply bind_ok in H as (stl & Hadd & H).
  rewrite (printed_bind_ok _ _ Hadd). cbv zeta in H |- *.
  apply bind_ok in H as ([] & Hrep & H).
  rewrite (printed_bind_ok _ _ Hrep).
  simpl in H. injection H as <-. cbn [loudness long_term_loudness
    short_term_loudness instantaneous_loudness_left instantaneous_loudness_right].
  split; [ eapply long_term_max, Hlt | ]. split; [ exact Hrep | ].
  simpl. rewrite app_nil_r. reflexivity.
Qed.

(** X8.  The sone-to-phon converter only serves the summary.  With another
    converter a run that returns returns the same five outputs; but a
    converter that raises on the long-term sequence makes the run raise,
    although every output had been computed by then. *)
Theorem converter_only_reports
        (U : Env) (converter : vec -> res vec)
        (filename_sound : string) (db_max : Q) (field_type : string)
        (s : option ndarray) (fs : option Z) (out : outputs) :
  result (tv2018 U filename_sound db_max field_type s fs) = Ok out ->
  let other :=
    tv2018 (with_converter U converter) filename_sound db_max field_type s fs in
  (forall out', result other = Ok out' -> out' = out) /\
  (forall e, converter (long_term_loudness out) = Err e ->
             result other = Err e).
Proof.
  intros H other. subst other.
  pose proof (tv2018_ok_printed _ _ _ _ _ _ H) as (Hmax & _ & _).
  pose proof (tv2018_ok _ _ _ _ _ _ H)
    as (padded & fs' & isl_l & isl_r & stl_l & stl_r
        & Hprep & Hisl & Hst & Hlt & Hadd & Hil & Hir).
  split.
  - intros out' H'.
    apply tv2018_ok in H'
      as (padded' & fs'' & isl_l' & isl_r' & stl_l' & stl_r'
          & Hprep' & Hisl' & Hst' & Hlt' & Hadd' & Hil' & Hir').
    change (prepare (with_converter U converter) filename_sound s fs)
      with (prepare U filename_sound s fs) in Hprep'.
    rewrite Hprep in Hprep'. injection Hprep' as <- <-.
    change (instantaneous_specific_loudness (with_converter U converter))
      with (instantaneous_specific_loudness U) in Hisl'.
    rewrite Hisl in Hisl'. injection Hisl' as <- <-.
    change (short_term (with_converter U converter))
      with (short_term U) in Hst'.
    rewrite Hst in Hst'. injection Hst' as <- <-.
    change (long_term (with_converter U converter))
      with (long_term U) in Hlt'.
    rewrite Hlt in Hlt'. injection Hlt' as Hl1 Hl2.
    rewrite Hadd in Hadd'. injection Hadd' as Hs.
    destruct out, out'. simpl in *. congruence.
  - intros e He. unfold tv2018, core.
    rewrite (result_bind_ok _ _ Hprep).
    rewrite (result_bind_ok _ _ Hisl).
    rewrite (result_bind_ok _ _ Hst).
    rewrite (result_bind_ok _ _ Hlt).
    rewrite (result_bind_ok (lift (np_add stl_l stl_r)) _ Hadd). cbv zeta.
    apply result_bind_err. unfold report. cbv zeta.
    rewrite !bind_print. unfold result. cbn [snd].
    rewrite Hmax, bind_lift_ok, bind_print. cbn [snd].
    cbn [with_converter sone_to_phon_tv2018]. rewrite He. reflexivity.
Qed.

(** X9.  A run that returns returns no empty sequence: the summary takes
    the maximum of each of the four, and [np.max] raises on an empty
    array. *)
Theorem returned_sequences_are_nonempty
        (U : Env) (filename_sound : string) (db_max : Q) (field_type : string)
        (s : option ndarray) (fs : option Z) (out : outputs) :
  result (tv2018 U filename_sound db_max field_type s fs) = Ok out ->
  short_term_loudness out <> [] /\
  long_term_loudness out <> [] /\
  instantaneous_loudness_left out <> [] /\
  instantaneous_loudness_right out <> [].
Proof.
  intros H. apply tv2018_ok_printed in H as (_ & Hrep & _).
  apply report_ok in Hrep
    as (x1 & x2 & x3 & x4 & x5 & x6 & p & q
        & H1 & _ & _ & H3 & _ & _ & H5 & H6 & _).
  repeat split; intros E; rewrite E in *; discriminate.
Qed.

(** X10.  The console output of a run that returns: what the steps before
    the first stage printed, the five announcements, then the ten lines of
    the summary.  The long-term maximum shown in sone is the loudness the
    run returns; the others are the maxima of the returned short-term and
    instantaneous sequences and of the converter's images of the long-term
    and short-term sequences. *)
Theorem console_of_a_returning_run
        (U : Env) (filename_sound : string) (db_max : Q) (field_type : string)
        (s : option ndarray) (fs : option Z) (out : outputs) :
  result (tv2018 U filename_sound db_max field_type s fs) = Ok out ->
  exists long_phon short_sone short_phon left_sone right_sone p q,
    sone_to_phon_tv2018 U (long_term_loudness out) = Ok p /\
    np_max p = Ok long_phon /\
    np_max (short_term_loudness out) = Ok short_sone /\
    sone_to_phon_tv2018 U (short_term_loudness out) = Ok q /\
    np_max q = Ok short_phon /\
    np_max (instantaneous_loudness_left out) = Ok left_sone /\
    np_max (instantaneous_loudness_right out) = Ok right_sone /\
    printed (tv2018 U filename_sound db_max field_type s fs)
    = printed (prepare U filename_sound s fs) ++ stage_lines
        ++ summary_lines filename_sound db_max field_type
                         (loudness out) long_phon short_sone short_phon
                         left_sone right_sone.
Proof.
  intros H. apply tv2018_ok_printed in H as (Hmax & Hrep & Hpr).
  apply report_ok in Hrep
    as (x1 & x2 & x3 & x4 & x5 & x6 & p & q
        & H1 & Hp & H2 & H3 & Hq & H4 & H5 & H6 & Hlines).
  rewrite Hmax in H1. injection H1 as <-.
  exists x2, x3, x4, x5, x6, p, q.
  repeat (split; [ assumption | ]). rewrite Hpr, Hlines. reflexivity.
Qed.

(** * Properties of the reference values *)

Section InterpFacts.

Import References.
Local Open Scope Q_scope.

Lemma Qlt_bool_true (x y : Q) : Qlt_bool x y = true <-> x < y.
Proof.
  unfold Qlt_bool. split.
  - intros H. apply Qnot_le_lt. intros Hle. apply Qle_bool_iff in Hle.
    rewrite Hle in H. discriminate.
  - intros H. destruct (Qle_bool y x) eqn:E; [ | reflexivity ].
    apply Qle_bool_iff in E. lra.
Qed.

Lemma Qlt_bool_false (x y : Q) : Qlt_bool x y = false <-> y <= x.
Proof.
  unfold Qlt_bool. rewrite negb_false_iff. apply Qle_bool_iff.
Qed.

Lemma Qle_bool_false_lt (x y : Q) : Qle_bool x y = false -> y < x.
Proof.
  intros H. apply Qnot_le_lt. intros Hle. apply Qle_bool_iff in Hle. congruence.
Qed.

Lemma increasing_cons (a b : Q) (rest : list Q) :
  increasing a (b :: rest) = true <-> a < b /\ increasing b rest = true.
Proof.
  simpl. rewrite andb_true_iff, Qlt_bool_true. reflexivity.
Qed.

Lemma increasing_lt (a b : Q) (rest : list Q) :
  increasing a rest = true -> In b rest -> a < b.
Proof.
  revert a. induction rest as [| c rest IH]; intros a H Hin; [ destruct Hin | ].
  apply increasing_cons in H as (Hac & H). destruct Hin as [-> | Hin].
  - exact Hac.
  - eapply Qlt_trans; [ exact Hac | apply IH; assumption ].
Qed.

(** One segment: the value stays between the values at its two ends. *)
Lemma segment_between (a b x fa fb lo hi : Q) :
  a <= x -> x < b -> lo <= fa <= hi -> lo <= fb <= hi ->
  lo <= (fb - fa) / (b - a) * (x - a) + fa <= hi.
Proof.
  intros Hax Hxb Hfa Hfb.
  assert (E : (fb - fa) / (b - a) * (x - a) + fa
              == fa + (fb - fa) * ((x - a) / (b - a))) by (field; lra).
  rewrite E.
  assert (H0 : 0 <= (x - a) / (b - a)) by (apply Qle_shift_div_l; lra).
  assert (H1 : (x - a) / (b - a) <= 1) by (apply Qle_shift_div_r; lra).
  generalize dependent ((x - a) / (b - a)). intros t _ H0 H1. split; nra.
Qed.

Lemma interp_from_within (x lo hi : Q) (xs fs : list Q) (a fa : Q) :
  increasing a xs = true -> length xs = length fs -> a <= x ->
  lo <= fa <= hi -> within lo hi fs = true ->
  lo <= interp_from x a fa (combine xs fs) <= hi.
Proof.
  revert fs a fa. induction xs as [| b xs IH]; intros [| fb fs] a fa;
    simpl; try discriminate; try (intros; assumption).
  intros Hinc [= Hlen] Hax Hfa Hw.
  apply andb_true_iff in Hinc as (Hab & Hinc). apply Qlt_bool_true in Hab.
  apply andb_true_iff in Hw as (Hfb & Hw).
  apply andb_true_iff in Hfb as (Hfb1 & Hfb2).
  apply Qle_bool_iff in Hfb1, Hfb2.
  destruct (Qle_bool b x) eqn:Ebx.
  - apply Qle_bool_iff in Ebx. apply IH; auto.
  - apply Qle_bool_false_lt in Ebx.
    destruct (Qeq_bool a x); [ assumption | ].
    apply segment_between; auto.
Qed.

(** On sorted tables [interp] returns a number, and none outside the range
    of the tabulated values. *)
Lemma np_interp_within (x lo hi : Q) (xp fp : list Q) :
  sorted_tables xp fp = true -> within lo hi fp = true ->
  exists y, np_interp x xp fp = Returns y /\ lo <= y <= hi.
Proof.
  destruct xp as [| a xs], fp as [| fa fs]; simpl; try discriminate.
  intros Hs Hw. apply andb_true_iff in Hs as (Hlen & Hinc).
  rewrite Hlen, Hinc. simpl. apply Nat.eqb_eq in Hlen.
  apply andb_true_iff in Hw as (Hfa & Hw).
  apply andb_true_iff in Hfa as (Hfa1 & Hfa2). apply Qle_bool_iff in Hfa1, Hfa2.
  destruct (Qlt_bool x a) eqn:E.
  - eexists. split; [ reflexivity | auto ].
  - apply Qlt_bool_false in E. eexists. split; [ reflexivity | ].
    apply interp_from_within; auto.
Qed.

Lemma np_interp_unsorted (x : Q) (xp fp : list Q) :
  unsorted_tables xp fp = true -> np_interp x xp fp = Unspecified.
Proof.
  destruct xp as [| a xs], fp as [| fa fs]; simpl; try discriminate.
  intros H. apply andb_true_iff in H as (Hlen & Hinc).
  rewrite Hlen, Hinc. reflexivity.
Qed.

Lemma np_interp_raises (x : Q) (xp fp : list Q) (e : error) :
  np_interp x xp fp = Raises e ->
  e = ValueError /\ (xp = [] \/ length xp <> length fp).
Proof.
  destruct xp as [| a xs], fp as [| fa fs]; simpl.
  - intros [= <-]. auto.
  - intros [= <-]. auto.
  - intros [= <-]. split; [ reflexivity | right; discriminate ].
  - destruct (length xs =? length fs)%nat eqn:E; simpl.
    + destruct (increasing a xs); simpl; [ | discriminate ].
      destruct (Qlt_bool x a); discriminate.
    + intros [= <-]. apply Nat.eqb_neq in E. split; [ reflexivity | right; congruence ].
Qed.

(** At a sample point the value is the sample's. *)
Lemma interp_from_here (xs fs : list Q) (a fa : Q) :
  increasing a xs = true -> interp_from a a fa (combine xs fs) = fa.
Proof.
  destruct xs as [| b xs], fs as [| fb fs]; simpl; try reflexivity.
  intros H. apply andb_true_iff in H as (Hab & _). apply Qlt_bool_true in Hab.
  destruct (Qle_bool b a) eqn:E; [ apply Qle_bool_iff in E; lra | ].
  assert (Ea : Qeq_bool a a = true) by (apply Qeq_bool_iff; reflexivity).
  rewrite Ea. reflexivity.
Qed.

Lemma interp_from_sample (i : nat) (xs fs : list Q) (a fa x y : Q) :
  increasing a xs = true ->
  nth_error xs i = Some x -> nth_error fs i = Some y ->
  interp_from x a fa (combine xs fs) = y.
Proof.
  revert xs fs a fa. induction i as [| i IH]; intros [| b xs] [| fb fs] a fa;
    simpl; try discriminate.
  - intros Hinc [= ->] [= ->]. apply andb_true_iff in Hinc as (_ & Hinc).
    assert (E : Qle_bool x x = true) by (apply Qle_bool_iff, Qle_refl).
    rewrite E. apply interp_from_here, Hinc.
  - intros Hinc Hx Hy. apply andb_true_iff in Hinc as (_ & Hinc).
    assert (Hbx : b < x) by (eapply increasing_lt; eauto using nth_error_In).
    assert (E : Qle_bool b x = true) by (apply Qle_bool_iff; lra).
    rewrite E. eapply IH; eauto.
Qed.

Lemma np_interp_sample (i : nat) (xp fp : list Q) (x y : Q) :
  sorted_tables xp fp = true ->
  nth_error xp i = Some x -> nth_error fp i = Some y ->
  np_interp x xp fp = Returns y.
Proof.
  destruct xp as [| a xs], fp as [| fa fs]; simpl; try discriminate.
  intros Hs Hx Hy. apply andb_true_iff in Hs as (Hlen & Hinc).
  rewrite Hlen, Hinc. simpl. destruct i as [| i]; simpl in Hx, Hy.
  - injection Hx as ->. injection Hy as ->.
    assert (E : Qlt_bool x x = false) by (apply Qlt_bool_false, Qle_refl).
    rewrite E. f_equal. apply interp_from_here, Hinc.
  - assert (Hax : a < x) by (eapply increasing_lt; eauto using nth_error_In).
    assert (E : Qlt_bool x a = false) by (apply Qlt_bool_false; lra).
    rewrite E. f_equal. eapply interp_from_sample; eauto.
Qed.

(** Below the first sample point, and on it, the value is the first one. *)
Lemma np_interp_below (x : Q) (xp fp : list Q) :
  sorted_tables xp fp = true -> x <= hd 0 xp ->
  np_interp x xp fp = Returns (hd 0 fp).
Proof.
  destruct xp as [| a xs], fp as [| fa fs]; try discriminate.
  simpl. intros Hs Hx. apply andb_true_iff in Hs as (Hlen & Hinc).
  rewrite Hlen, Hinc. simpl.
  destruct (Qlt_bool x a) eqn:E; [ reflexivity | ].
  apply Qlt_bool_false in E. f_equal.
  destruct xs as [| b xs], fs as [| fb fs]; simpl; try reflexivity.
  apply increasing_cons in Hinc as (Hab & _).
  destruct (Qle_bool b x) eqn:E1; [ apply Qle_bool_iff in E1; lra | ].
  assert (E2 : Qeq_bool a x = true) by (apply Qeq_bool_iff; lra).
  rewrite E2. reflexivity.
Qed.

(** From the last sample point on, the value is the last one. *)
Lemma interp_from_above (x : Q) (xs fs : list Q) (a fa : Q) :
  increasing a xs = true -> length xs = length fs ->
  last (a :: xs) 0 <= x ->
  interp_from x a fa (combine xs fs) = last (fa :: fs) 0.
Proof.
  revert fs a fa. induction xs as [| b xs IH]; intros [| fb fs] a fa;
    try discriminate.
  - reflexivity.
  - intros Hinc [= Hlen] Hx. apply increasing_cons in Hinc as (Hab & Hinc).
    change (last (a :: b :: xs) 0) with (last (b :: xs) 0) in Hx.
    change (last (fa :: fb :: fs) 0) with (last (fb :: fs) 0).
    assert (Hb : b <= last (b :: xs) 0).
    { destruct xs as [| c xs]; [ apply Qle_refl | ].
      apply Qlt_le_weak. eapply increasing_lt; [ exact Hinc | ].
      change (last (b :: c :: xs) 0) with (last (c :: xs) 0).
      destruct (exists_last (l := c :: xs)) as (l' & z & E); [ discriminate | ].
      rewrite E, last_last. apply in_or_app. right. left. reflexivity. }
    simpl. assert (E : Qle_bool b x = true) by (apply Qle_bool_iff; lra).
    rewrite E. apply IH; auto.
Qed.

Lemma np_interp_above (x : Q) (xp fp : list Q) :
  sorted_tables xp fp = true -> last xp 0 <= x ->
  np_interp x xp fp = Returns (last fp 0).
Proof.
  destruct xp as [| a xs], fp as [| fa fs]; try discriminate.
  intros Hs Hx. simpl in Hs. apply andb_true_iff in Hs as (Hlen & Hinc).
  unfold np_interp. rewrite Hlen, Hinc. cbn [negb].
  apply Nat.eqb_eq in Hlen.
  assert (Ha : a <= last (a :: xs) 0).
  { destruct xs as [| c xs]; [ apply Qle_refl | ].
    apply Qlt_le_weak. eapply increasing_lt; [ exact Hinc | ].
    change (last (a :: c :: xs) 0) with (last (c :: xs) 0).
    destruct (exists_last (l := c :: xs)) as (l' & z & E); [ discriminate | ].
    rewrite E, last_last. apply in_or_app. right. left. reflexivity. }
  assert (E : Qlt_bool x a = false) by (apply Qlt_bool_false; lra).
  rewrite E. f_equal. apply interp_from_above; auto.
Qed.

End InterpFacts.

Section ReferenceValues.

Import References.
Local Open Scope Q_scope.

(** The branch a known carrier takes, with the tables still folded. *)
Ltac pick_branch :=
  cbv beta iota zeta delta
      [ref_zf ref_dw ref_ps ref_ecma interp_bound Z.eqb Pos.eqb].
Ltac pick_branch_in H :=
  cbv beta iota zeta delta
      [ref_zf ref_dw ref_ps ref_ecma interp_bound Z.eqb Pos.eqb] in H.

(** No branch is taken for a carrier that is not among [cs]. *)
Ltac no_branch H :=
  cbv beta zeta delta [ref_zf ref_dw ref_ps ref_ecma];
  repeat match goal with
         | |- context [(?fc =? ?k)%Z] =>
             let E := fresh "E" in
             destruct (fc =? k)%Z eqn:E;
             [ apply Z.eqb_eq in E; exfalso; apply H; rewrite E; simpl; tauto | ]
         end;
  reflexivity.

Ltac never_raises :=
  let Hr := fresh "Hr" in
  intros Hr; pick_branch_in Hr;
  apply np_interp_raises in Hr as (_ & [Hr | Hr]);
  vm_compute in Hr; [ discriminate Hr | apply Hr; reflexivity ].

(** X11.  A carrier a function has no table for leaves its tables unbound,
    and the call raises [UnboundLocalError]; for the carriers it has tables
    for, [interp] gets tables of equal length and the call does not raise.
    [ref_zf], [ref_dw] and [ref_ecma] know seven carriers, [ref_ps] only
    250, 1000 and 4000. *)
Theorem unknown_carrier_raises (fc : Z) (fmod : Q) :
  (~ In fc carriers ->
   ref_zf fc fmod = Raises UnboundLocalError /\
   ref_dw fc fmod = Raises UnboundLocalError /\
   ref_ecma fc fmod = Raises UnboundLocalError) /\
  (~ In fc carriers_ps -> ref_ps fc fmod = Raises UnboundLocalError) /\
  (In fc carriers ->
   forall e, ref_zf fc fmod <> Raises e /\ ref_dw fc fmod <> Raises e /\
             ref_ecma fc fmod <> Raises e) /\
  (In fc carriers_ps -> forall e, ref_ps fc fmod <> Raises e).
Proof.
  split; [ | split; [ | split ] ].
  - intros H. repeat split; no_branch H.
  - intros H. no_branch H.
  - intros H e. simpl in H.
    repeat (destruct H as [<- | H]); [ .. | destruct H ];
      repeat split; never_raises.
  - intros H e. simpl in H.
    repeat (destruct H as [<- | H]); [ .. | destruct H ]; never_raises.
Qed.

Ltac in_range :=
  pick_branch; apply np_interp_within; vm_compute; reflexivity.

(** X12.  For each of its seven carriers and any modulation frequency,
    [ref_ecma] returns a roughness between 0.0147 and 1 asper, and it
    returns 1 for the carrier of 1000 Hz modulated at 70 Hz. *)
Theorem ref_ecma_range (fc : Z) (fmod : Q) :
  In fc carriers ->
  (exists y, ref_ecma fc fmod = Returns y /\ 0.0147 <= y <= 1) /\
  (exists y, ref_ecma 1000 70 = Returns y /\ y == 1).
Proof.
  intros H. split.
  - simpl in H. repeat (destruct H as [<- | H]); [ .. | destruct H ]; in_range.
  - eexists. split; [ vm_compute; reflexivity | reflexivity ].
Qed.

Ltac at_sample :=
  let i := fresh "i" in
  let x := fresh "x" in
  let y := fresh "y" in
  let Hx := fresh "Hx" in
  let Hy := fresh "Hy" in
  intros i x y Hx Hy; pick_branch;
  apply (np_interp_sample i); [ vm_compute; reflexivity | exact Hx | exact Hy ].

Ltac below_first :=
  pick_branch;
  rewrite np_interp_below;
  [ vm_compute; reflexivity | vm_compute; reflexivity | assumption ].

Ltac above_last :=
  pick_branch;
  rewrite np_interp_above;
  [ vm_compute; reflexivity | vm_compute; reflexivity | assumption ].

(** X13.  [ref_ecma] returns each tabulated roughness at its modulation
    frequency, and does not extrapolate: below 20 Hz it returns the value
    at 20 Hz, above 400 Hz the value at 400 Hz. *)
Theorem ref_ecma_samples_and_ends (fc : Z) (fmod : Q) :
  In fc carriers ->
  Forall (fun t =>
            forall i x y,
              nth_error ecma_fmod_vector i = Some x ->
              nth_error (snd t) i = Some y ->
              ref_ecma (fst t) x = Returns y) ecma_tables /\
  (fmod <= 20 -> ref_ecma fc fmod = ref_ecma fc 20) /\
  (400 <= fmod -> ref_ecma fc fmod = ref_ecma fc 400).
Proof.
  intros H. split; [ | split ].
  - unfold ecma_tables. repeat constructor; cbn [fst snd]; at_sample.
  - intros Hf. simpl in H.
    repeat (destruct H as [<- | H]); [ .. | destruct H ]; below_first.
  - intros Hf. simpl in H.
    repeat (destruct H as [<- | H]); [ .. | destruct H ]; above_last.
Qed.

(** X14.  For each of its three carriers, [ref_ps] returns a roughness
    between 0.11399959 and 1.0053802, returns each tabulated value at its
    modulation frequency, and is constant below 20 Hz and above the last
    tabulated frequency: 130 Hz for 250 Hz, 160 Hz for 1000 and 4000 Hz. *)
Theorem ref_ps_range_samples_and_ends (fc : Z) (fmod : Q) :
  In fc carriers_ps ->
  (exists y, ref_ps fc fmod = Returns y /\ 0.11399959 <= y <= 1.0053802) /\
  Forall (fun t =>
            forall i x y,
              nth_error (fst (snd t)) i = Some x ->
              nth_error (snd (snd t)) i = Some y ->
              ref_ps (fst t) x = Returns y) ps_tables /\
  (fmod <= 20 -> ref_ps fc fmod = ref_ps fc 20) /\
  ((if (fc =? 250)%Z then 130 else 160) <= fmod ->
   ref_ps fc fmod = ref_ps fc (if (fc =? 250)%Z then 130 else 160)).
Proof.
  intros H. split; [ | split; [ | split ] ].
  - simpl in H. repeat (destruct H as [<- | H]); [ .. | destruct H ]; in_range.
  - unfold ps_tables. repeat constructor; cbn [fst snd]; at_sample.
  - intros Hf. simpl in H.
    repeat (destruct H as [<- | H]); [ .. | destruct H ]; below_first.
  - simpl in H.
    repeat (destruct H as [<- | H]); [ .. | destruct H ];
      cbn [Z.eqb Pos.eqb]; intros Hf; above_last.
Qed.

Ltac not_sorted :=
  pick_branch; apply np_interp_unsorted; vm_compute; reflexivity.

(** X15.  [ref_zf] interpolates in increasing tables for the carriers from
    500 to 8000 Hz, and returns a roughness between 0.0024511195 and
    0.99174285 there.  For 125 and 250 Hz its modulation frequencies are
    not in increasing order (106.34942 before 105.52151, 166.90276 before
    164.31425), which numpy's [interp] does not check and does not support:
    what it returns there is not determined by its documentation. *)
Theorem ref_zf_tables (fc : Z) (fmod : Q) :
  In fc [500; 1000; 2000; 4000; 8000]%Z ->
  (exists y, ref_zf fc fmod = Returns y /\ 0.0024511195 <= y <= 0.99174285) /\
  ref_zf 125 fmod = Unspecified /\
  ref_zf 250 fmod = Unspecified.
Proof.
  intros H. split; [ | split; not_sorted ].
  simpl in H. repeat (destruct H as [<- | H]); [ .. | destruct H ]; in_range.
Qed.

(** X16.  [ref_dw] interpolates in increasing tables for the carriers of
    500, 4000 and 8000 Hz, and returns a roughness between 0.00432277 and
    0.69550407 there.  For 125, 250, 1000 and 2000 Hz its modulation
    frequencies are not in increasing order, so that what [interp] returns
    is not determined by its documentation. *)
Theorem ref_dw_tables (fc : Z) (fmod : Q) :
  In fc [500; 4000; 8000]%Z ->
  (exists y, ref_dw fc fmod = Returns y /\ 0.00432277 <= y <= 0.69550407) /\
  ref_dw 125 fmod = Unspecified /\
  ref_dw 250 fmod = Unspecified /\
  ref_dw 1000 fmod = Unspecified /\
  ref_dw 2000 fmod = Unspecified.
Proof.
  intros H. split; [ | repeat split; not_sorted ].
  simpl in H. repeat (destruct H as [<- | H]); [ .. | destruct H ]; in_range.
Qed.

End ReferenceValues.

(** * The further properties at work on the executable instance *)

(** Samples given without a rate are set aside for the file. *)
Lemma missing_input_is_loaded_witness :
  tv2018 Demo.env "tone.wav" 100 "free" (Some (Demo.tone 96)) None
  = tv2018 Demo.env "tone.wav" 100 "free" None None.
Proof.
  exact (proj2 (@missing_input_is_loaded Demo.env "tone.wav" 100 "free"
                  (Some (Demo.tone 96)) None (or_intror eq_refl))).
Defined.

(** A filterbank stage that refuses every other rate changes nothing. *)
Lemma filterbank_runs_at_32000_witness :
  tv2018 (with_filterbank Demo.env filterbank_at_32000)
         "tone.wav" 100 "free" (Some (Demo.tone 48)) (Some 16000)
  = Demo.run_16000.
Proof.
  apply (@filterbank_runs_at_32000 Demo.env filterbank_at_32000
           "tone.wav" 100 "free" (Some (Demo.tone 48)) (Some 16000)).
  intros c. reflexivity.
Defined.

(** With 64 frames per channel the run stops at the trimming. *)
Lemma too_few_frames_raise_witness :
  tv2018 (short_filterbank 64) "tone.wav" 100 "free"
         (Some (Demo.tone 96)) (Some 32000)
  = ([] ++ [info_cochlea; info_filterbank], Err IndexError).
Proof.
  eapply (@too_few_frames_raise (short_filterbank 64) "tone.wav" 100 "free"
            (Some (Demo.tone 96)) (Some 32000) [] Demo.padded_tone
            Demo.padded_tone 32000).
  - vm_compute. reflexivity.
  - reflexivity.
  - reflexivity.
  - left. apply firstn_le_length.
Defined.

(** The left instantaneous loudness of the run on the tone starts at 0. *)
Lemma instantaneous_loudness_shape_witness :
  exists x rest,
    instantaneous_loudness_left Demo.out_32000 = x :: rest /\ (x == 0)%Q.
Proof.
  assert (H : result (tv2018 Demo.env "tone.wav" 100 "free"
                             (Some (Demo.tone 96)) (Some 32000))
              = Ok Demo.out_32000)
    by (vm_compute; reflexivity).
  pose proof (@instantaneous_loudness_shape Demo.env "tone.wav" 100 "free"
                (Some (Demo.tone 96)) (Some 32000) Demo.out_32000 H) as W.
  cbv zeta in W.
  destruct W as (p & c & l & r & _ & _ & _ & (_ & x & rest & E & E0 & _) & _).
  exists x, rest. split; assumption.
Defined.

(** The matrices of the run on the tone have as many frames as each other. *)
Lemma short_term_loudness_per_frame_witness :
  exists stsl_left stsl_right : matrix,
    (length stsl_left <= length stsl_right)%nat.
Proof.
  assert (H : result (tv2018 Demo.env "tone.wav" 100 "free"
                             (Some (Demo.tone 96)) (Some 32000))
              = Ok Demo.out_32000)
    by (vm_compute; reflexivity).
  destruct (@short_term_loudness_per_frame Demo.env "tone.wav" 100 "free"
              (Some (Demo.tone 96)) (Some 32000) Demo.out_32000 H)
    as (p & il & ir & sl & ul & sr & ur & _ & _ & _ & _ & Hle & _).
  exists sl, sr. exact Hle.
Defined.

(** A converter that always raises makes the run on the tone raise. *)
Lemma converter_only_reports_witness :
  result (tv2018 (with_converter Demo.env (fun _ => Err NumericDomainError))
                 "tone.wav" 100 "free" (Some (Demo.tone 96)) (Some 32000))
  = Err NumericDomainError.
Proof.
  assert (H : result (tv2018 Demo.env "tone.wav" 100 "free"
                             (Some (Demo.tone 96)) (Some 32000))
              = Ok Demo.out_32000)
    by (vm_compute; reflexivity).
  exact (proj2 (@converter_only_reports Demo.env
                  (fun _ => Err NumericDomainError) "tone.wav" 100 "free"
                  (Some (Demo.tone 96)) (Some 32000) Demo.out_32000 H)
               NumericDomainError eq_refl).
Defined.

(** The four sequences of the run on the tone. *)
Lemma returned_sequences_are_nonempty_witness :
  short_term_loudness Demo.out_32000 <> [] /\
  long_term_loudness Demo.out_32000 <> [] /\
  instantaneous_loudness_left Demo.out_32000 <> [] /\
  instantaneous_loudness_right Demo.out_32000 <> [].
Proof.
  apply (@returned_sequences_are_nonempty Demo.env "tone.wav" 100 "free"
           (Some (Demo.tone 96)) (Some 32000)).
  vm_compute. reflexivity.
Defined.

(** The run on the tone shows the loudness it returns. *)
Lemma console_of_a_returning_run_witness :
  In (line_loudness (loudness Demo.out_32000)) (printed Demo.run_32000).
Proof.
  assert (H : result (tv2018 Demo.env "tone.wav" 100 "free"
                             (Some (Demo.tone 96)) (Some 32000))
              = Ok Demo.out_32000)
    by (vm_compute; reflexivity).
  destruct (@console_of_a_returning_run Demo.env "tone.wav" 100 "free"
              (Some (Demo.tone 96)) (Some 32000) Demo.out_32000 H)
    as (x2 & x3 & x4 & x5 & x6 & p & q & _ & _ & _ & _ & _ & _ & _ & Hpr).
  unfold Demo.run_32000. rewrite Hpr.
  apply in_or_app. right. apply in_or_app. right. simpl. auto.
Defined.

(** Between two tabulated frequencies of the 1000 Hz carrier. *)
Lemma ref_ecma_range_witness :
  exists y, References.ref_ecma 1000 75 = References.Returns y
            /\ (0.0147 <= y <= 1)%Q.
Proof.
  apply (proj1 (@ref_ecma_range 1000 75%Q ltac:(simpl; tauto))).
Defined.

(** Below the first tabulated frequency. *)
Lemma ref_ecma_samples_and_ends_witness :
  References.ref_ecma 1000 5 = References.ref_ecma 1000 20.
Proof.
  apply (proj1 (proj2 (@ref_ecma_samples_and_ends 1000 5%Q
                         ltac:(simpl; tauto)))).
  discriminate.
Defined.

(** Above the last tabulated frequency of the 250 Hz carrier. *)
Lemma ref_ps_range_samples_and_ends_witness :
  References.ref_ps 250 500 = References.ref_ps 250 130.
Proof.
  apply (proj2 (proj2 (proj2 (@ref_ps_range_samples_and_ends 250 500%Q
                                ltac:(simpl; tauto))))).
  discriminate.
Defined.

(** The 500 Hz carrier of [ref_zf]. *)
Lemma ref_zf_tables_witness :
  exists y, References.ref_zf 500 100 = References.Returns y
            /\ (0.0024511195 <= y <= 0.99174285)%Q.
Proof.
  apply (proj1 (@ref_zf_tables 500 100%Q ltac:(simpl; tauto))).
Defined.

(** The 500 Hz carrier of [ref_dw]. *)
Lemma ref_dw_tables_witness :
  exists y, References.ref_dw 500 50 = References.Returns y
            /\ (0.00432277 <= y <= 0.69550407)%Q.
Proof.
  apply (proj1 (@ref_dw_tables 500 50%Q ltac:(simpl; tauto))).
Defined.
